(** * Thematic-mapping dashboard of the CC@UFCG theses

    A shallow embedding of [src/dashboard/app.py] and the properties its
    specification states about it.  The program is a Streamlit script over
    Polars data frames: tables are lists of records, one record type per
    table with the columns of the export schema; the Polars and Python
    operations the script calls are functions on those lists and on strings,
    integers ([Z]) and binary64 floats ([float]); an exception is the
    [Raise] branch of [result].

    Text is modelled with Rocq's [string]: a Python [str] is the sequence
    of the bytes of its UTF-8 encoding. *)

From Stdlib Require Import ZArith Floats Ascii String DecimalString DecimalZ DecimalPos.
From stdpp Require Import base list sorting strings.

#[local] Set Warnings "-inexact-float,-register-all".

Local Open Scope string_scope.
Local Open Scope Z_scope.

(** ** The Python layer: exceptions, strings, integers and floats *)

Module Py.

(** The exception classes the script can meet; all derive from [Exception],
    so [except Exception] catches each of them. *)
Inductive exn : Type :=
  | TypeError
  | ValueError
  | OverflowError
  | ZeroDivisionError
  | IndexError
  | AttributeError
  | OSError.

Inductive result (A : Type) : Type :=
  | Ok (a : A)
  | Raise (e : exn).
Arguments Ok {A} a.
Arguments Raise {A} e.

Definition bind {A B} (r : result A) (k : A -> result B) : result B :=
  match r with
  | Ok a => k a
  | Raise e => Raise e
  end.

#[global] Instance result_ret : MRet result := λ A a, Ok a.
#[global] Instance result_bind : MBind result := λ A B k r, bind r k.

(** [try: body / except Exception: handler] where both return a value. *)
Definition try_except {A} (body : result A) (handler : A) : A :=
  match body with
  | Ok a => a
  | Raise _ => handler
  end.

Definition of_option {A} (e : exn) (o : option A) : result A :=
  match o with
  | Some a => Ok a
  | None => Raise e
  end.

(** *** Strings *)

(** [str.isspace] on the ASCII range: TAB, LF, VT, FF, CR, the four
    separators 0x1c-0x1f and the space. *)
Definition is_space (c : ascii) : bool :=
  let n := nat_of_ascii c in
  ((9 <=? n) && (n <=? 13) || (28 <=? n) && (n <=? 32))%nat.

(** The white space of [str.isspace] beyond ASCII, in UTF-8: U+0085 and
    U+00A0 take two bytes; U+1680, U+2000 to U+200A, U+2028, U+2029, U+202F,
    U+205F and U+3000 take three. *)
Definition is_space2 (c1 c2 : ascii) : bool :=
  let n1 := nat_of_ascii c1 in
  let n2 := nat_of_ascii c2 in
  ((n1 =? 194) && ((n2 =? 133) || (n2 =? 160)))%nat.

Definition is_space3 (c1 c2 c3 : ascii) : bool :=
  let n1 := nat_of_ascii c1 in
  let n2 := nat_of_ascii c2 in
  let n3 := nat_of_ascii c3 in
  ((n1 =? 225) && (n2 =? 154) && (n3 =? 128) ||
   (n1 =? 226) && (n2 =? 128) &&
     ((128 <=? n3) && (n3 <=? 138) || (n3 =? 168) || (n3 =? 169) || (n3 =? 175)) ||
   (n1 =? 226) && (n2 =? 129) && (n3 =? 159) ||
   (n1 =? 227) && (n2 =? 128) && (n3 =? 128))%nat.

(** [s] is exactly one white-space character. *)
Definition is_space_char (s : string) : bool :=
  match s with
  | String c1 EmptyString => is_space c1
  | String c1 (String c2 EmptyString) => is_space2 c1 c2
  | String c1 (String c2 (String c3 EmptyString)) => is_space3 c1 c2 c3
  | _ => false
  end.

(** [s.lstrip()] and [s.rstrip()]: the white-space characters at the start,
    and at the end, are dropped. *)
Fixpoint lstrip (s : string) : string :=
  match s with
  | String c1 r1 =>
      if is_space c1 then lstrip r1
      else
        match r1 with
        | String c2 r2 =>
            if is_space2 c1 c2 then lstrip r2
            else
              match r2 with
              | String c3 r3 => if is_space3 c1 c2 c3 then lstrip r3 else s
              | EmptyString => s
              end
        | EmptyString => s
        end
  | EmptyString => EmptyString
  end.

Fixpoint rstrip (s : string) : string :=
  match s with
  | String c r =>
      let t := String c (rstrip r) in
      if is_space_char t then EmptyString else t
  | EmptyString => EmptyString
  end.

(** [s.strip()] *)
Definition strip (s : string) : string := rstrip (lstrip s).

(** [s.lstrip(chars)] and [s.rstrip(chars)] with the set of characters given
    as a predicate (the script passes ASCII characters). *)
Fixpoint lstrip_by (p : ascii -> bool) (s : string) : string :=
  match s with
  | String c r => if p c then lstrip_by p r else s
  | EmptyString => EmptyString
  end.

Fixpoint rstrip_by (p : ascii -> bool) (s : string) : string :=
  match s with
  | String c r =>
      match rstrip_by p r with
      | EmptyString => if p c then EmptyString else String c EmptyString
      | r' => String c r'
      end
  | EmptyString => EmptyString
  end.

Definition strip_by (p : ascii -> bool) (s : string) : string :=
  rstrip_by p (lstrip_by p s).

Fixpoint mem_char (c : ascii) (chars : string) : bool :=
  match chars with
  | String d r => Ascii.eqb c d || mem_char c r
  | EmptyString => false
  end.

(** [s.strip(chars)] *)
Definition strip_chars (chars : string) (s : string) : string :=
  strip_by (fun c => mem_char c chars) s.

(** [s.split(sep)] for a separator of one character: the pieces between the
    occurrences of [sep], never an empty list. *)
Fixpoint split (sep : ascii) (s : string) : list string :=
  match s with
  | EmptyString => [EmptyString]
  | String c r =>
      if Ascii.eqb c sep then EmptyString :: split sep r
      else match split sep r with
           | p :: ps => String c p :: ps
           | [] => [String c EmptyString]
           end
  end.

(** [xs[0]] *)
Definition item0 {A} (xs : list A) : result A :=
  match xs with
  | x :: _ => Ok x
  | [] => Raise IndexError
  end.

(** [s[1:]] *)
Definition slice_from_1 (s : string) : string :=
  match s with
  | String _ r => r
  | EmptyString => EmptyString
  end.

(** Whether every character of [s] satisfies [p]. *)
Fixpoint all_chars (p : ascii -> bool) (s : string) : bool :=
  match s with
  | EmptyString => true
  | String c r => p c && all_chars p r
  end.

(** *** Integers *)

(** [str(n)] for an integer: decimal digits, a leading minus sign for a
    negative number. *)
Definition str_of_int (z : Z) : string :=
  match z with
  | Z0 => "0"
  | Zpos p => NilEmpty.string_of_uint (Pos.to_uint p)
  | Zneg p => String "-" (NilEmpty.string_of_uint (Pos.to_uint p))
  end.

Definition digit_val (c : ascii) : option Z :=
  let n := nat_of_ascii c in
  if ((48 <=? n) && (n <=? 57))%nat then Some (Z.of_nat n - 48) else None.

Definition is_digit (c : ascii) : bool :=
  match digit_val c with Some _ => true | None => false end.

Definition is_sign_or_digit (c : ascii) : bool := is_digit c || Ascii.eqb c "-".

(** The digits of an integer literal as [int] reads them: decimal digits,
    between two of which a single underscore may stand; [seen] tells whether
    the previous character was a digit. *)
Fixpoint parse_digits (s : string) (acc : Z) (seen : bool) : option Z :=
  match s with
  | EmptyString => if seen then Some acc else None
  | String c r =>
      if Ascii.eqb c "_" then
        if seen then parse_digits r acc false else None
      else
        match digit_val c with
        | Some d => parse_digits r (10 * acc + d) true
        | None => None
        end
  end.

(** [int(s)] on a string: white space around is dropped, then an optional
    sign and the digits (those of ASCII, which [str] writes); anything else
    is a [ValueError]. *)
Definition int_of_str (s : string) : result Z :=
  of_option ValueError
    match strip s with
    | String "-" r => Z.opp <$> parse_digits r 0 false
    | String "+" r => parse_digits r 0 false
    | t => parse_digits t 0 false
    end.

(** *** Floats

    A Python float is a binary64 number: Rocq's primitive [float], read
    through [Prim2SF] as sign, mantissa and exponent. *)

Definition prec : Z := 53.
Definition emax : Z := 1024.

(** [float(n)] for an integer: the nearest binary64 number (ties to even),
    [OverflowError] when that is beyond the largest one. *)
Definition float_of_int (z : Z) : result float :=
  match binary_normalize prec emax z 0 false with
  | S754_infinity _ => Raise OverflowError
  | sf => Ok (SF2Prim sf)
  end.

(** An integer as a float, rounded to nearest (exact below 2^53). *)
Definition float_of_Z (z : Z) : float :=
  SF2Prim (binary_normalize prec emax z 0 false).

(** [a / b] on two integers: true division, the quotient rounded once to
    the nearest binary64 number.  As in CPython, operands below 2^53 are
    converted (exactly) and divided as floats; larger ones go through the
    long division, which can overflow. *)
Definition int_truediv (a b : Z) : result float :=
  if b =? 0 then Raise ZeroDivisionError
  else if (Z.abs a <? 2 ^ 53) && (Z.abs b <? 2 ^ 53) then
    Ok (float_of_Z a / float_of_Z b)%float
  else
    let s := xorb (a <? 0) (b <? 0) in
    if a =? 0 then Ok (SF2Prim (S754_zero s))
    else
      let '(mz, ez, lz) := SFdiv_core_binary prec emax (Z.abs a) 0 (Z.abs b) 0 in
      match binary_round_aux prec emax s mz ez lz with
      | S754_infinity _ => Raise OverflowError
      | sf => Ok (SF2Prim sf)
      end.

(** [n / d] rounded to the nearest integer, a tie going to the even one. *)
Definition div_round_half_even (n d : Z) : Z :=
  let q := n / d in
  match 2 * (n mod d) ?= d with
  | Lt => q
  | Gt => q + 1
  | Eq => if Z.even q then q else q + 1
  end.

(** The number of tenths in [m * 2^e], correctly rounded. *)
Definition tenths (m : positive) (e : Z) : Z :=
  if 0 <=? e then 10 * Z.pos m * 2 ^ e
  else div_round_half_even (10 * Z.pos m) (2 ^ (- e)).

Definition sign_str (s : bool) : string := if s then "-" else "".

(** [format(x, ".1f")]: fixed notation with one digit after the point, the
    exact binary value rounded half to even; [nan] and [inf] by name. *)
Definition format_1f (x : float) : string :=
  match Prim2SF x with
  | S754_nan => "nan"
  | S754_infinity s => sign_str s +:+ "inf"
  | S754_zero s => sign_str s +:+ "0.0"
  | S754_finite s m e =>
      let t := tenths m e in
      sign_str s +:+ str_of_int (t / 10) +:+ "." +:+ str_of_int (t mod 10)
  end.

(** *** Values

    The values that reach the script from the manifest (what [json.loads]
    builds) and from its own arithmetic. *)
Inductive pyval : Type :=
  | PyNone
  | PyBool (b : bool)
  | PyInt (z : Z)
  | PyFloat (x : float)
  | PyStr (s : string)
  | PyList (l : list pyval)
  | PyDict (d : list (string * pyval)).

(** CPython's reading of a string as a float literal ([float("1e-3")],
    [float("nan")], ...) is left open: [None] stands for its [ValueError]. *)
Class FloatLiteral := float_of_str : string -> option float.

(** [float(v)] *)
Definition float_of `{FloatLiteral} (v : pyval) : result float :=
  match v with
  | PyNone => Raise TypeError
  | PyBool b => Ok (if b then 1%float else 0%float)
  | PyInt z => float_of_int z
  | PyFloat x => Ok x
  | PyStr s => of_option ValueError (float_of_str s)
  | PyList _ => Raise TypeError
  | PyDict _ => Raise TypeError
  end.

(** Truth value of a value, as [if v:] tests it. *)
Definition truthy (v : pyval) : bool :=
  match v with
  | PyNone => false
  | PyBool b => b
  | PyInt z => negb (z =? 0)
  | PyFloat x => negb (PrimFloat.eqb x 0%float)
  | PyStr s => negb (String.eqb s "")
  | PyList l => match l with [] => false | _ => true end
  | PyDict d => match d with [] => false | _ => true end
  end.

End Py.

(** ** The Polars layer

    A data frame is the list of its rows.  Polars leaves the order of rows
    open after [group_by] and among equal keys of [sort]; the functions
    below fix one order there, and the properties proved of them are stated
    up to that freedom where it matters. *)

Module Polars.
Import Py.

(** What a call leaves to the engine that runs it.  A join without
    [maintain_order] (the script passes none) gives its rows in an order of
    the engine's choosing, which may depend on both frames: [row_order] is
    that choice, a permutation of the rows.  The mean of a float column is
    rounded as the engine adds the values, which is not in row order:
    [mean] is the engine's. *)
Class Engine := {
  row_order : ∀ A B C : Type, list A -> list B -> list C -> list C;
  row_order_perm : ∀ (A B C : Type) (df : list A) (other : list B) (rows : list C),
    row_order A B C df other rows ≡ₚ rows;
  mean : list float -> float
}.
Arguments row_order {_ A B C} df other rows.
Arguments row_order_perm {_ A B C} df other rows.

(** [df.height] *)
Definition height {A} (df : list A) : Z := Z.of_nat (length df).

(** [df.is_empty()] *)
Definition is_empty {A} (df : list A) : bool :=
  match df with [] => true | _ => false end.

(** [df.join(other, on=key, how="inner")]: a row for every pair of rows with
    equal keys, in the engine's order. *)
Definition inner_rows {A B C K} `{EqDecision K}
    (ka : A -> K) (kb : B -> K) (mk : A -> B -> C)
    (df : list A) (other : list B) : list C :=
  a ← df; mk a <$> filter (λ b, kb b = ka a) other.

Definition join_inner `{Engine} {A B C K} `{EqDecision K}
    (ka : A -> K) (kb : B -> K) (mk : A -> B -> C)
    (df : list A) (other : list B) : list C :=
  row_order df other (inner_rows ka kb mk df other).

(** [df.join(other, on=key, how="left")]: as the inner join, and a row of
    [df] without a partner is kept once, with nulls for the other columns. *)
Definition left_rows {A B C K} `{EqDecision K}
    (ka : A -> K) (kb : B -> K) (mk : A -> option B -> C)
    (df : list A) (other : list B) : list C :=
  a ← df;
  match filter (λ b, kb b = ka a) other with
  | [] => [mk a None]
  | bs => (λ b, mk a (Some b)) <$> bs
  end.

Definition join_left `{Engine} {A B C K} `{EqDecision K}
    (ka : A -> K) (kb : B -> K) (mk : A -> option B -> C)
    (df : list A) (other : list B) : list C :=
  row_order df other (left_rows ka kb mk df other).

(** [df.sort(...)]: the rows ordered by the comparison [leb] that the call's
    columns and [descending] flags describe. *)
Definition sort {A} (leb : A -> A -> bool) (df : list A) : list A :=
  merge_sort (H := λ a b, Is_true_dec (leb a b)) (λ a b, leb a b) df.

(** The order of a Float64 column in a sort: by value, the two zeros equal,
    NaN above every number.  Every binary64 exponent is at least -1074, so
    the key is the value scaled to an integer. *)
Definition float_key (x : float) : Z :=
  match Prim2SF x with
  | S754_zero _ => 0
  | S754_finite s m e => (if s then -1 else 1) * (Z.pos m * 2 ^ (e + 1074))
  | S754_infinity s => if s then - 2 ^ 2100 else 2 ^ 2100
  | S754_nan => 2 ^ 2101
  end.

(** [df.group_by(key)]: the distinct keys, each with its rows. *)
Definition group_by {A K} `{EqDecision K} (key : A -> K) (df : list A)
    : list (K * list A) :=
  (λ k, (k, filter (λ a, key a = k) df)) <$> remove_dups (key <$> df).

(** The sum of a list of integers. *)
Definition sum_int (xs : list Z) : Z := foldr Z.add 0 xs.

(** An integer as an Int64 cell holds it: modulo 2^64, from -2^63 to
    2^63 - 1. *)
Definition wrap_i64 (z : Z) : Z := (z + 2 ^ 63) mod 2 ^ 64 - 2 ^ 63.

(** [pl.col(c).sum()] over the rows of a group, on an Int64 column: the sum
    in Int64 arithmetic, which wraps around. *)
Definition sum_i64 (xs : list Z) : Z := wrap_i64 (sum_int xs).

(** [col.drop_nulls()] *)
Definition drop_nulls {A} (col : list (option A)) : list A := omap id col.

(** [df.head(n)] *)
Definition head {A} (n : nat) (df : list A) : list A := take n df.

(** [df.item()] on a frame of one column: its only value; a frame that is
    not 1 x 1 is a [ValueError]. *)
Definition item {A} (df : list A) : result A :=
  match df with
  | [x] => Ok x
  | _ => Raise ValueError
  end.

(** *** [Expr.str.contains]

    The pattern of [str.contains(pattern, literal=False)] is a regular
    expression of the Rust regex crate.  The fragment modelled here: a
    character that is no metacharacter stands for itself, a dot for any
    character but the line feed.  A pattern with another metacharacter is
    outside the fragment ([None]). *)
Inductive atom : Type :=
  | Lit (c : ascii)
  | AnyChar.

Definition is_meta (c : ascii) : bool := mem_char c "\.+*?()|[]{}^$".

Fixpoint regex_parse (pattern : string) : option (list atom) :=
  match pattern with
  | EmptyString => Some []
  | String c r =>
      if Ascii.eqb c "." then cons AnyChar <$> regex_parse r
      else if is_meta c then None
      else cons (Lit c) <$> regex_parse r
  end.

Definition lower (c : ascii) : ascii :=
  let n := nat_of_ascii c in
  if ((65 <=? n) && (n <=? 90))%nat then ascii_of_nat (n + 32) else c.

Definition atom_matches (nocase : bool) (a : atom) (c : ascii) : bool :=
  match a with
  | Lit d => if nocase then Ascii.eqb (lower c) (lower d) else Ascii.eqb c d
  | AnyChar => negb (Ascii.eqb c "010")
  end.

Fixpoint match_here (nocase : bool) (re : list atom) (s : string) : bool :=
  match re, s with
  | [], _ => true
  | a :: re', String c s' => atom_matches nocase a c && match_here nocase re' s'
  | _ :: _, EmptyString => false
  end.

Fixpoint match_anywhere (nocase : bool) (re : list atom) (s : string) : bool :=
  match_here nocase re s ||
  match s with
  | String _ s' => match_anywhere nocase re s'
  | EmptyString => false
  end.

(** The keyword parameters [Expr.str.contains] takes: a call with a keyword
    the function does not have is a [TypeError].  The script passes
    [literal] and [case]. *)
Class StrContains := str_contains_keywords : list string.

Definition kwarg (name : string) (default : bool) (kwargs : list (string * bool)) : bool :=
  match list_find (λ kv, kv.1 = name) kwargs with
  | Some (_, kv) => kv.2
  | None => default
  end.

(** [pl.col(c).str.contains(pattern, **kwargs)] as a test on the strings of
    the column, for a function that takes the keywords of [kwargs];
    [literal] defaults to [False]. *)
Definition str_contains `{StrContains} (pattern : string) (kwargs : list (string * bool))
    : result (option (string -> bool)) :=
  if bool_decide (Forall (λ kv, kv.1 ∈ str_contains_keywords) kwargs) then
    let nocase := negb (kwarg "case" true kwargs) in
    Ok ((λ re, match_anywhere nocase re) <$>
        (if kwarg "literal" false kwargs
         then Some (Lit <$> list_ascii_of_string pattern)
         else regex_parse pattern))
  else Raise TypeError.

(** The keywords of Polars' function,
    [Expr.str.contains(pattern, *, literal=False, strict=True)]: it has no
    [case]. *)
Definition str_contains_signature : StrContains := ["literal"; "strict"].

End Polars.

(** ** The script, [src/dashboard/app.py] *)

Module App.
Import Py Polars.

(** *** Paths (lines 12-20)

    An absolute path is the list of its components below the root;
    [exists_] is the state of the file system. *)

Definition path : Type := list string.

(** [p / name] *)
Definition joinpath (p : path) (name : string) : path := (p ++ [name])%list.

(** [p.parents]: the ancestors of [p], the nearest first, the root last. *)
Definition parents (p : path) : list path :=
  (λ n, take n p) <$> reverse (seq 0 (length p)).

Definition has_data_and_notebooks (exists_ : path -> bool) (p : path) : bool :=
  exists_ (joinpath p "data") && exists_ (joinpath p "notebooks").

(** The loop of [find_project_root]: the first candidate with both
    directories, [start] when there is none. *)
Fixpoint first_root (exists_ : path -> bool) (candidates : list path) (start : path)
    : path :=
  match candidates with
  | p :: rest =>
      if has_data_and_notebooks exists_ p then p else first_root exists_ rest start
  | [] => start
  end.

Definition find_project_root (exists_ : path -> bool) (start : path) : path :=
  first_root exists_ (start :: parents start) start.

(** [EXPORT], from [ROOT = find_project_root(CWD)]. *)
Definition export_dir (exists_ : path -> bool) (cwd : path) : path :=
  joinpath (joinpath (joinpath (find_project_root exists_ cwd) "data") "exports") "dashboard".

(** *** The exported tables

    One record per table, a field per column.  Keys ([DOC_ID],
    [orientador_id]) are compared for equality only. *)

Record Doc : Type := {
  DOC_ID : string;
  ano : Z;
  titulo : string;
  orientador_nome : string;
  orientador_id : string;
  url : string
}.

Record Topic : Type := {
  topic : Z;
  label : string;
  keywords : string
}.

Record DocTopic : Type := {
  dt_DOC_ID : string;
  dt_topic : Z;
  prob : float
}.

Record Trend : Type := {
  tr_topic : Z;
  tr_ano : Z;
  share : float;
  n_docs : Z
}.

Record AdvisorProfile : Type := {
  ap_orientador_id : string;
  ap_orientador_nome : string;
  n_tccs : Z;
  anos_atuacao : Z;
  temas_top : string
}.

Record AdvisorTopic : Type := {
  at_orientador_id : string;
  at_topic : Z;
  at_n_docs : Z;
  share_no_orientador : float
}.

(** A row of [doc_with_topic]: the columns of [doc_topics], those of [docs]
    and [label], null where the topic has no row in [topics]. *)
Record DocWithTopic : Type := {
  assignment : DocTopic;
  document : Doc;
  dwt_label : option string
}.

(** [topics.select(["topic","label"])] *)
Definition topic_labels (topics : list Topic) : list (Z * string) :=
  (λ t, (topic t, label t)) <$> topics.

(** [doc_with_topic] (lines 98-101) *)
Definition doc_with_topic `{Engine} (docs : list Doc) (topics : list Topic)
    (doc_topics : list DocTopic) : list DocWithTopic :=
  join_left (λ r : DocTopic * Doc, dt_topic r.1) fst
    (λ r t, {| assignment := r.1; document := r.2; dwt_label := snd <$> t |})
    (join_inner dt_DOC_ID DOC_ID pair doc_topics docs)
    (topic_labels topics).

(** *** Small presentation helpers (lines 47-56) *)

Definition fmt_topic_label (topic_row : Topic) : string :=
  "[" +:+ str_of_int (topic topic_row) +:+ "] " +:+ label topic_row.

Definition dash : string := "–".

Definition human_pct `{FloatLiteral} (x : pyval) : string :=
  try_except
    (v ← float_of x; mret (format_1f (100.0 * v)%float +:+ "%"))
    dash.

(** *** The manifest (lines 29-37)

    [fp.exists()] and [fp.read_text(encoding="utf-8")] read the state of the
    file; [json.loads] is the standard library's parser, left open, [None]
    standing for its [JSONDecodeError]. *)
Record file : Type := {
  file_exists : bool;
  read_text : result string
}.

Class JsonParser := json_loads : string -> option pyval.

Definition empty_dict : pyval := PyDict [].

Definition load_manifest `{JsonParser} (fp : file) : pyval :=
  if file_exists fp then
    try_except
      (text ← read_text fp; of_option ValueError (json_loads text))
      empty_dict
  else empty_dict.

(** [d.get(key, default)]; a value that is no dict has no [get]. *)
Definition dict_get (d : pyval) (key : string) (default : pyval) : result pyval :=
  match d with
  | PyDict kvs =>
      Ok (match list_find (λ kv, kv.1 = key) kvs with
          | Some (_, kv) => kv.2
          | None => default
          end)
  | _ => Raise AttributeError
  end.

(** *** What the script shows

    A run emits Streamlit elements one after the other; an exception ends
    the run and leaves what was shown before it. *)

Record ThesisRow : Type := {
  th_DOC_ID : string;
  th_ano : Z;
  th_titulo : string;
  th_orientador_nome : string;
  th_url : string;
  th_prob : float
}.

Record AdvisorThesisRow : Type := {
  ath_DOC_ID : string;
  ath_ano : Z;
  ath_titulo : string;
  ath_label : option string;
  ath_prob : float;
  ath_url : string;
  ath_topic : Z
}.

Record AdvisorRow : Type := {
  ar_orientador_nome : string;
  ar_n_tccs : Z;
  ar_anos_atuacao : Z;
  ar_temas_top : string
}.

Record TopShare : Type := {
  ts_topic : Z;
  share_medio : float;
  n_total : Z;
  ts_label : option string
}.

Inductive table : Type :=
  | TopShareTable (rows : list TopShare)
  | ByYearTable (rows : list (Z * Z))
  | AdvisorTable (rows : list AdvisorRow)
  | ThesisTable (rows : list ThesisRow)
  | TrendTable (rows : list Trend)
  | AdvisorThesisTable (rows : list AdvisorThesisRow)
  | AdvisorTopicTable (rows : list (AdvisorTopic * option string))
  | EvolutionTable (rows : list (Trend * option string)).

(** A piece of an f-string: literal text, or a value formatted in place. *)
Inductive piece : Type :=
  | Text (s : string)
  | Value (v : pyval).

Inductive widget : Type :=
  | Title (s : string)
  | Subheader (s : string)
  | Markdown (s : string)
  | MarkdownF (ps : list piece)
  | Caption (s : string)
  | Write (s : string)
  | Info (s : string)
  | Warning (s : string)
  | Metric (name value : string)
  | DataFrame (t : table)
  | Chart (t : table).

Definition script (A : Type) : Type := list widget * result A.

#[global] Instance script_ret : MRet script := λ A a, ([], Ok a).
#[global] Instance script_bind : MBind script := λ A B k m,
  match m.2 with
  | Ok a => ((m.1 ++ (k a).1)%list, (k a).2)
  | Raise e => (m.1, Raise e)
  end.

#[global] Instance script_fmap : FMap script := λ A B f m,
  (m.1, match m.2 with Ok a => Ok (f a) | Raise e => Raise e end).

Definition emit (w : widget) : script unit := ([w], Ok tt).

Definition lift {A} (r : result A) : script A := ([], r).

(** *** Sidebar: the manifest's fields (lines 70-82) *)

Definition sidebar `{FloatLiteral} (manifest : pyval) : script unit :=
  if truthy manifest then
    generated_at ← lift (dict_get manifest "generated_at" (PyStr dash));
    emit (MarkdownF [Text "**Gerado em:** "; Value generated_at]);;
    sel ← lift (dict_get manifest "selection" empty_dict);
    (if truthy sel then
       method ← lift (dict_get sel "method" (PyStr dash));
       run ← lift (dict_get sel "run" (PyStr dash));
       trial ← lift (dict_get sel "trial" (PyStr dash));
       emit (MarkdownF [Text "**Modelo:** "; Value method; Text "  \n**Run/Trial:** ";
                        Value run; Text " / "; Value trial]);;
       K ← lift (dict_get sel "K" (PyStr dash));
       pct ← lift (dict_get sel "reported_outliers_pct" PyNone);
       emit (MarkdownF [Text "**K:** "; Value K; Text "  \n**Outliers (reported):** ";
                        Text (human_pct pct)])
     else mret tt);;
    corp ← lift (dict_get manifest "corpus" empty_dict);
    n ← lift (dict_get corp "n_docs" (PyStr dash));
    years ← lift (dict_get corp "years" empty_dict);
    ymin ← lift (dict_get years "min" (PyStr dash));
    years' ← lift (dict_get corp "years" empty_dict);
    ymax ← lift (dict_get years' "max" (PyStr dash));
    emit (MarkdownF [Text "**Docs:** "; Value n; Text "  \n**Anos:** ";
                     Value ymin; Text dash; Value ymax])
  else emit (Caption "Manifesto não encontrado (_manifest.json).").

(** *** 1) Visão geral (lines 106-142) *)

(** [docs["ano"]]: the column of years.  A cell of a frame can be null;
    the rows of the model all carry a year. *)
Definition col_ano (docs : list Doc) : list (option Z) := (λ d, Some (ano d)) <$> docs.

(** [yrs = col.drop_nulls()], then
    [f"{int(yrs.min())}–{int(yrs.max())}" if yrs.len() else "–"] *)
Definition periodo (col : list (option Z)) : string :=
  match drop_nulls col with
  | [] => dash
  | y :: ys => str_of_int (foldr Z.min y ys) +:+ dash +:+ str_of_int (foldr Z.max y ys)
  end.

Definition by_share_medio_desc (a b : TopShare) : bool :=
  bool_decide (float_key (share_medio b) ≤ float_key (share_medio a)).

Definition top_share_groups `{Engine} (trends : list Trend) : list (Z * float * Z) :=
  (λ g, (g.1, mean (share <$> g.2), sum_i64 (n_docs <$> g.2))) <$> group_by tr_topic trends.

Definition top_share_joined `{Engine} (trends : list Trend) (topics : list Topic)
    : list TopShare :=
  join_left (λ g : Z * float * Z, g.1.1) fst
    (λ g t, {| ts_topic := g.1.1; share_medio := g.1.2; n_total := g.2;
               ts_label := snd <$> t |})
    (top_share_groups trends) (topic_labels topics).

Definition top_share `{Engine} (trends : list Trend) (topics : list Topic) : list TopShare :=
  head 10 (sort by_share_medio_desc (top_share_joined trends topics)).

Definition by_year (docs : list Doc) : list (Z * Z) :=
  sort (λ a b : Z * Z, bool_decide (a.1 ≤ b.1))
    ((λ g, (g.1, height g.2)) <$> group_by ano docs).

Definition out_count (doc_topics : list DocTopic) : Z :=
  height (filter (λ r, dt_topic r = -1) doc_topics).

Definition page_overview `{FloatLiteral} `{Engine} (docs : list Doc) (topics : list Topic)
    (doc_topics : list DocTopic) (trends : list Trend) : script unit :=
  emit (Title "Mapeamento Temático dos TCCs – CC@UFCG");;
  emit (Metric "Total de TCCs" (str_of_int (height docs)));;
  emit (Metric "Período" (periodo (col_ano docs)));;
  emit (Metric "Temas (sem -1)" (str_of_int (height topics)));;
  ratio ← lift (int_truediv (out_count doc_topics) (height docs));
  emit (Metric "Outliers (docs)"
          (str_of_int (out_count doc_topics) +:+ " (" +:+ human_pct (PyFloat ratio) +:+ ")"));;
  emit (Markdown "### Top temas (por participação no período)");;
  emit (Chart (TopShareTable (top_share trends topics)));;
  emit (Markdown "### Distribuição por ano");;
  emit (Chart (ByYearTable (by_year docs))).

(** *** 2) Pesquisar orientadores (lines 147-156) *)

Definition advisor_row (p : AdvisorProfile) : AdvisorRow :=
  {| ar_orientador_nome := ap_orientador_nome p; ar_n_tccs := n_tccs p;
     ar_anos_atuacao := anos_atuacao p; ar_temas_top := temas_top p |}.

Definition by_n_tccs_desc (a b : AdvisorRow) : bool :=
  bool_decide (ar_n_tccs b ≤ ar_n_tccs a).

(** [base] after the [if q.strip():] block; [None] when the query, read as a
    regular expression, is outside the modelled fragment. *)
Definition search_base `{StrContains} (q : string) (advisor_profiles : list AdvisorProfile)
    : result (option (list AdvisorProfile)) :=
  if negb (String.eqb (strip q) "") then
    match str_contains q [("literal", false); ("case", false)] with
    | Ok test =>
        Ok ((λ f : string -> bool,
               filter (λ p, f (ap_orientador_nome p)) advisor_profiles) <$> test)
    | Raise e => Raise e
    end
  else Ok (Some advisor_profiles).

Definition search_table (base : list AdvisorProfile) : list AdvisorRow :=
  sort by_n_tccs_desc (advisor_row <$> base).

Definition page_search `{StrContains} (q : string) (advisor_profiles : list AdvisorProfile)
    : script (option unit) :=
  emit (Title "Pesquisar orientadores");;
  base ← lift (search_base q advisor_profiles);
  match base with
  | Some base =>
      emit (Caption ("Resultados: " +:+ str_of_int (height base)));;
      emit (DataFrame (AdvisorTable (search_table base)));;
      mret (Some tt)
  | None => mret None
  end.

(** *** 3) Filtrar TCCs por tema (lines 161-185) *)

(** [st.selectbox(..., options=options)]: the option the user picked, [None]
    when there is none to pick. *)
Definition selectbox (options : list string) (pick : nat) : option string :=
  options !! pick.

(** [int(choice.split("]")[0].strip("["))] *)
Definition decode_choice (choice : option string) : result Z :=
  match choice with
  | Some choice =>
      first ← item0 (split "]" choice);
      int_of_str (strip_chars "[" first)
  | None => Raise AttributeError
  end.

Definition by_topic (a b : Topic) : bool := bool_decide (topic a ≤ topic b).

Definition display_opts (topics : list Topic) : list string :=
  fmt_topic_label <$> sort by_topic topics.

Definition thesis_row (r : DocWithTopic) : ThesisRow :=
  {| th_DOC_ID := dt_DOC_ID (assignment r); th_ano := ano (document r);
     th_titulo := titulo (document r);
     th_orientador_nome := orientador_nome (document r);
     th_url := url (document r); th_prob := prob (assignment r) |}.

(** [sort(["ano","prob"], descending=[False, True])] *)
Definition ano_asc_prob_desc (ano1 : Z) (prob1 : float) (ano2 : Z) (prob2 : float) : bool :=
  bool_decide (ano1 < ano2 ∨ ano1 = ano2 ∧ float_key prob2 ≤ float_key prob1).

Definition subset (doc_with_topic : list DocWithTopic) (sel_topic : Z) : list ThesisRow :=
  sort (λ a b, ano_asc_prob_desc (th_ano a) (th_prob a) (th_ano b) (th_prob b))
    (thesis_row <$> filter (λ r, dt_topic (assignment r) = sel_topic) doc_with_topic).

Definition t_trend (trends : list Trend) (sel_topic : Z) : list Trend :=
  sort (λ a b, bool_decide (tr_ano a ≤ tr_ano b))
    (filter (λ r, tr_topic r = sel_topic) trends).

Definition no_series : string := "Sem série temporal para este tema.".

Definition page_filter (topics : list Topic) (doc_with_topic : list DocWithTopic)
    (trends : list Trend) (pick : nat) : script unit :=
  emit (Title "Filtrar TCCs por tema");;
  sel_topic ← lift (decode_choice (selectbox (display_opts topics) pick));
  emit (Caption ("Tema selecionado: " +:+ str_of_int sel_topic));;
  emit (Write ("**TCCs no tema [" +:+ str_of_int sel_topic +:+ "]** — " +:+
               str_of_int (height (subset doc_with_topic sel_topic)) +:+ " documentos"));;
  emit (DataFrame (ThesisTable (subset doc_with_topic sel_topic)));;
  if negb (is_empty (t_trend trends sel_topic))
  then emit (Chart (TrendTable (t_trend trends sel_topic)))
  else emit (Info no_series).

(** *** 4) Perfil do orientador (lines 190-225) *)

(** [advisor_profiles.filter(pl.col("orientador_nome")==choice)
       .select("orientador_id").item()] *)
Definition resolve_oid (advisor_profiles : list AdvisorProfile) (choice : string)
    : result string :=
  item (ap_orientador_id <$>
        filter (λ p, ap_orientador_nome p = choice) advisor_profiles).

(** [advisor_profiles.filter(pl.col("orientador_id")==oid).to_dicts()[0]] *)
Definition perfil_of (advisor_profiles : list AdvisorProfile) (oid : string)
    : result AdvisorProfile :=
  item0 (filter (λ p, ap_orientador_id p = oid) advisor_profiles).

Definition advisor_thesis_row (r : DocWithTopic) : AdvisorThesisRow :=
  {| ath_DOC_ID := dt_DOC_ID (assignment r); ath_ano := ano (document r);
     ath_titulo := titulo (document r); ath_label := dwt_label r;
     ath_prob := prob (assignment r); ath_url := url (document r);
     ath_topic := dt_topic (assignment r) |}.

Definition tccs (doc_with_topic : list DocWithTopic) (oid : string) : list AdvisorThesisRow :=
  sort (λ a b, ano_asc_prob_desc (ath_ano a) (ath_prob a) (ath_ano b) (ath_prob b))
    (advisor_thesis_row <$>
     filter (λ r, orientador_id (document r) = oid) doc_with_topic).

Definition dist `{Engine} (advisor_topics : list AdvisorTopic) (topics : list Topic)
    (oid : string) : list (AdvisorTopic * option string) :=
  sort (λ a b, bool_decide (at_n_docs b.1 ≤ at_n_docs a.1))
    (join_left at_topic fst (λ r t, (r, snd <$> t))
       (filter (λ r, at_orientador_id r = oid) advisor_topics)
       (topic_labels topics)).

Definition orient_opts (advisor_profiles : list AdvisorProfile) : list string :=
  ap_orientador_nome <$>
  sort (λ a b, String.leb (ap_orientador_nome a) (ap_orientador_nome b)) advisor_profiles.

Definition page_profile `{Engine} (advisor_profiles : list AdvisorProfile)
    (advisor_topics : list AdvisorTopic) (topics : list Topic)
    (doc_with_topic : list DocWithTopic) (pick : nat) : script unit :=
  emit (Title "Perfil do orientador");;
  if is_empty (orient_opts advisor_profiles) then
    emit (Warning "Sem perfis de orientadores disponíveis.")
  else
    choice ← lift (of_option AttributeError (selectbox (orient_opts advisor_profiles) pick));
    oid ← lift (resolve_oid advisor_profiles choice);
    perfil ← lift (perfil_of advisor_profiles oid);
    emit (Subheader choice);;
    emit (Metric "TCCs orientados" (str_of_int (n_tccs perfil)));;
    emit (Metric "Anos de atuação" (str_of_int (anos_atuacao perfil)));;
    emit (Metric "Temas principais" (temas_top perfil));;
    emit (Markdown "#### Trabalhos orientados");;
    emit (DataFrame (AdvisorThesisTable (tccs doc_with_topic oid)));;
    emit (Markdown "#### Distribuição de temas (no orientador)");;
    if negb (is_empty (dist advisor_topics topics oid))
    then emit (Chart (AdvisorTopicTable (dist advisor_topics topics oid)))
    else emit (Info "Sem distribuição de temas calculada para este orientador.").

(** *** 5) Evolução de temas (lines 230-252) *)

(** [int(p.split("]")[0][1:])] *)
Definition decode_pick (p : string) : result Z :=
  first ← item0 (split "]" p);
  int_of_str (slice_from_1 first).

(** The [display] column: ["[" + topic.cast(Utf8) + "] " + label]. *)
Definition labels (topics : list Topic) : list string :=
  (λ o : Z * string, "[" +:+ str_of_int o.1 +:+ "] " +:+ o.2) <$>
  sort (λ a b : Z * string, bool_decide (a.1 ≤ b.1)) (topic_labels topics).

Definition evolution `{Engine} (trends : list Trend) (topics : list Topic)
    (sel_topics : list Z) : list (Trend * option string) :=
  sort (λ a b : Trend * option string,
          bool_decide (tr_topic a.1 < tr_topic b.1 ∨
                       tr_topic a.1 = tr_topic b.1 ∧ tr_ano a.1 ≤ tr_ano b.1))
    (join_left tr_topic fst (λ r t, (r, snd <$> t))
       (filter (λ r, tr_topic r ∈ sel_topics) trends)
       (sort (λ a b : Z * string, bool_decide (a.1 ≤ b.1)) (topic_labels topics))).

(** [picks]: the labels the user ticked, given by their positions. *)
Definition multiselect (options : list string) (ticked : list nat) : list string :=
  omap (λ i, options !! i) ticked.

Definition page_evolution `{Engine} (trends : list Trend) (topics : list Topic)
    (ticked : list nat) : script unit :=
  emit (Title "Evolução de temas no período");;
  let picks := multiselect (labels topics) ticked in
  if negb (is_empty picks) then
    sel_topics ← lift (mapM decode_pick picks);
    emit (Chart (EvolutionTable (evolution trends topics sel_topics)))
  else emit (Info "Selecione ao menos um tema para visualizar a evolução.").

(** *** The whole run (lines 61-258) *)

Inductive page : Type :=
  | VisaoGeral
  | PesquisarOrientadores
  | FiltrarTCCsPorTema
  | PerfilDoOrientador
  | EvolucaoDeTemas.

(** What the user entered in the widgets. *)
Record inputs : Type := {
  in_page : page;
  in_query : string;
  in_pick : nat;
  in_ticked : list nat
}.

(** The export directory: a table is [None] when its file is missing. *)
Record exports : Type := {
  manifest_json : file;
  docs_parquet : option (list Doc);
  topics_current_parquet : option (list Topic);
  topics_parquet : option (list Topic);
  doc_topics_parquet : option (list DocTopic);
  topic_trends_parquet : option (list Trend);
  advisor_profiles_parquet : option (list AdvisorProfile);
  advisor_topics_parquet : option (list AdvisorTopic)
}.

Definition load_parquet {A} (f : option A) : result A := of_option OSError f.

Definition topics_table (ex : exports) : result (list Topic) :=
  match topics_current_parquet ex with
  | Some _ => load_parquet (topics_current_parquet ex)
  | None => load_parquet (topics_parquet ex)
  end.

Definition main `{FloatLiteral} `{JsonParser} `{StrContains} `{Engine}
    (ex : exports) (user : inputs) : script (option unit) :=
  sidebar (load_manifest (manifest_json ex));;
  docs ← lift (load_parquet (docs_parquet ex));
  topics ← lift (topics_table ex);
  doc_topics ← lift (load_parquet (doc_topics_parquet ex));
  trends ← lift (load_parquet (topic_trends_parquet ex));
  advisor_profiles ← lift (load_parquet (advisor_profiles_parquet ex));
  advisor_topics ← lift (load_parquet (advisor_topics_parquet ex));
  let dwt := doc_with_topic docs topics doc_topics in
  shown ← match in_page user with
          | VisaoGeral => Some <$> page_overview docs topics doc_topics trends
          | PesquisarOrientadores => page_search (in_query user) advisor_profiles
          | FiltrarTCCsPorTema => Some <$> page_filter topics dwt trends (in_pick user)
          | PerfilDoOrientador =>
              Some <$> page_profile advisor_profiles advisor_topics topics dwt (in_pick user)
          | EvolucaoDeTemas => Some <$> page_evolution trends topics (in_ticked user)
          end;
  match shown with
  | Some _ =>
      emit (Markdown "---");;
      emit (Caption "Trabalho de Conclusão de Curso em Ciência da Computação (UFCG) • Mapeamento temático com BERTopic • Dashboard por Daniel Dantas");;
      mret (Some tt)
  | None => mret None
  end.

End App.

(** ** Notions of the specification

    What the sentences of the specification speak of, beside the script's
    own functions: the value a metric shows, the shape of a percentage, a
    substring test, the joined view as the data model words it, and the
    small tables of its examples. *)

Module Spec.
Import Py Polars App.

(** The value shown by the first metric called [name]. *)
Fixpoint metric_of (name : string) (shown : list widget) : option string :=
  match shown with
  | Metric n v :: rest => if String.eqb n name then Some v else metric_of name rest
  | _ :: rest => metric_of name rest
  | [] => None
  end.

(** A byte that is no white space and starts none: ASCII, and no ASCII
    white space. *)
Definition is_plain (c : ascii) : bool :=
  negb (is_space c) && (nat_of_ascii c <? 128)%nat.

(** A percentage with exactly one decimal place: an optional minus sign, at
    least one digit, a point, one digit and the percent sign. *)
Definition drop_minus (s : string) : string :=
  match s with
  | String "-" r => r
  | _ => s
  end.

Definition one_decimal_pct (s : string) : bool :=
  match split "." (drop_minus s) with
  | [int_part; frac_part] =>
      negb (String.eqb int_part "") && all_chars is_digit int_part &&
      match frac_part with
      | String d "%" => is_digit d
      | _ => false
      end
  | _ => false
  end.

(** [t] tenths is the value [m * 2^e] rounded to one decimal place: exact
    when [e >= 0], else at most half a tenth away. *)
Definition nearest_tenths (m : positive) (e : Z) (t : Z) : Prop :=
  0 ≤ t ∧
  (0 ≤ e -> t = 10 * Z.pos m * 2 ^ e) ∧
  (e < 0 -> 2 * Z.abs (t * 2 ^ (- e) - 10 * Z.pos m) ≤ 2 ^ (- e)).

(** The joined view as the data model words it: every DocumentTopic row
    with the Document of its document id, dropped when there is none, and
    with the label of the Topic of its topic id, empty when there is none. *)
Definition lookup_doc (docs : list Doc) (id : string) : option Doc :=
  snd <$> list_find (λ d, DOC_ID d = id) docs.

Definition lookup_label (topics : list Topic) (t : Z) : option string :=
  (λ r, label r.2) <$> list_find (λ tp, topic tp = t) topics.

Definition spec_doc_with_topic (docs : list Doc) (topics : list Topic)
    (doc_topics : list DocTopic) : list DocWithTopic :=
  omap (λ dt,
          (λ d, {| assignment := dt; document := d;
                   dwt_label := lookup_label topics (dt_topic dt) |}) <$>
          lookup_doc docs (dt_DOC_ID dt))
       doc_topics.

(** The rows of [doc_topics] whose document id occurs in [docs]. *)
Definition matching_rows (docs : list Doc) (doc_topics : list DocTopic) : list DocTopic :=
  filter (λ dt, dt_DOC_ID dt ∈ DOC_ID <$> docs) doc_topics.



(** [name] contains [q] as a substring, letter case apart. *)
Fixpoint lower_str (s : string) : string :=
  match s with
  | EmptyString => EmptyString
  | String c r => String (lower c) (lower_str r)
  end.

Fixpoint is_prefix (p s : string) : bool :=
  match p, s with
  | EmptyString, _ => true
  | String a p', String b s' => Ascii.eqb a b && is_prefix p' s'
  | String _ _, EmptyString => false
  end.

Fixpoint is_substring (p s : string) : bool :=
  is_prefix p s ||
  match s with
  | String _ s' => is_substring p s'
  | EmptyString => false
  end.

Definition contains_nocase (q name : string) : bool :=
  is_substring (lower_str q) (lower_str name).

(** Descending order of thesis count. *)
Definition n_tccs_desc (a b : AdvisorRow) : Prop := ar_n_tccs b ≤ ar_n_tccs a.

(** Ascending year, and within a year descending probability. *)
Definition year_asc_prob_desc (y1 : Z) (p1 : float) (y2 : Z) (p2 : float) : Prop :=
  y1 < y2 ∨ y1 = y2 ∧ float_key p2 ≤ float_key p1.

(** The (topic, label) pairs behind the ticked options of the evolution
    page: the options are the pairs in ascending order of topic id. *)
Definition ticked_pairs (topics : list Topic) (ticked : list nat) : list (Z * string) :=
  omap (λ i, sort (λ a b : Z * string, bool_decide (a.1 ≤ b.1)) (topic_labels topics) !! i)
       ticked.

Definition is_dict (v : pyval) : bool :=
  match v with PyDict _ => true | _ => false end.

(** The export directory where every table file is present. *)
Definition exports_of (manifest : file) (docs : list Doc) (topics : list Topic)
    (doc_topics : list DocTopic) (trends : list Trend)
    (profiles : list AdvisorProfile) (ats : list AdvisorTopic) : exports :=
  {| manifest_json := manifest; docs_parquet := Some docs;
     topics_current_parquet := None; topics_parquet := Some topics;
     doc_topics_parquet := Some doc_topics; topic_trends_parquet := Some trends;
     advisor_profiles_parquet := Some profiles; advisor_topics_parquet := Some ats |}.

(** The export directory with another [topics.parquet], and with another
    [topics_current.parquet]. *)
Definition with_topics_parquet (ex : exports) (t : option (list Topic)) : exports :=
  {| manifest_json := manifest_json ex; docs_parquet := docs_parquet ex;
     topics_current_parquet := topics_current_parquet ex; topics_parquet := t;
     doc_topics_parquet := doc_topics_parquet ex;
     topic_trends_parquet := topic_trends_parquet ex;
     advisor_profiles_parquet := advisor_profiles_parquet ex;
     advisor_topics_parquet := advisor_topics_parquet ex |}.

Definition with_topics_current (ex : exports) (t : option (list Topic)) : exports :=
  {| manifest_json := manifest_json ex; docs_parquet := docs_parquet ex;
     topics_current_parquet := t; topics_parquet := topics_parquet ex;
     doc_topics_parquet := doc_topics_parquet ex;
     topic_trends_parquet := topic_trends_parquet ex;
     advisor_profiles_parquet := advisor_profiles_parquet ex;
     advisor_topics_parquet := advisor_topics_parquet ex |}.

(** Some table file of the export directory is missing. *)
Definition table_missing (ex : exports) : Prop :=
  docs_parquet ex = None ∨
  (topics_current_parquet ex = None ∧ topics_parquet ex = None) ∨
  doc_topics_parquet ex = None ∨ topic_trends_parquet ex = None ∨
  advisor_profiles_parquet ex = None ∨ advisor_topics_parquet ex = None.

(** A [float] parser that accepts no string, for the examples that pass no
    string. *)
Definition no_float_literal : FloatLiteral := λ _, None.

(** An engine for the examples: a join gives its rows as the frames list
    them, and the mean adds the values from left to right. *)
Definition listed_order : Engine :=
  {| row_order := λ _ _ _ _ _ rows, rows;
     row_order_perm := λ _ _ _ _ _ rows, Permutation_refl rows;
     mean := λ xs,
       (foldl PrimFloat.add 0 xs / float_of_Z (Z.of_nat (length xs)))%float |}.

(** Small tables for the examples. *)
Definition topic_row (t : Z) (lab : string) : Topic :=
  {| topic := t; label := lab; keywords := "" |}.

Definition doc_row (id : string) (year : Z) (advisor : string) : Doc :=
  {| DOC_ID := id; ano := year; titulo := "Thesis " +:+ id;
     orientador_nome := advisor; orientador_id := "id-" +:+ advisor;
     url := "https://example.org/" +:+ id |}.

Definition doc_topic_row (id : string) (t : Z) (p : float) : DocTopic :=
  {| dt_DOC_ID := id; dt_topic := t; prob := p |}.

Definition trend_row (t year : Z) (s : float) (n : Z) : Trend :=
  {| tr_topic := t; tr_ano := year; share := s; n_docs := n |}.

Definition profile_row (id name : string) (n : Z) : AdvisorProfile :=
  {| ap_orientador_id := id; ap_orientador_nome := name; n_tccs := n;
     anos_atuacao := 1; temas_top := "" |}.

Definition ex_topics : list Topic :=
  [topic_row (-1) "Outliers"; topic_row 0 "Machine Learning"].

Definition ex_docs : list Doc := [doc_row "a" 2020 "Ana"; doc_row "b" 2021 "Bob"].

Definition ex_doc_topics : list DocTopic :=
  [doc_topic_row "a" 0 0.9; doc_topic_row "b" (-1) 0.5].

Definition ex_trends : list Trend :=
  [trend_row 1 2020 0.2 4; trend_row 1 2021 0.3 6].

Definition ex_profiles : list AdvisorProfile :=
  [profile_row "o1" "Ana" 3; profile_row "o2" "Mariana" 5; profile_row "o3" "Bob" 4].

End Spec.

(** ** Properties

    First the facts about the Python and Polars layers that the claims rest
    on, then the claims of the specification, one theorem each. *)

Import Py Polars App Spec.

Local Open Scope list_scope.

(** *** Strings and integers *)

Lemma lstrip_by_id p s : all_chars (λ c, negb (p c)) s = true -> lstrip_by p s = s.
Proof. destruct s as [|c r]; simpl; [done|]. intros [Hc _]%andb_prop. apply negb_true_iff in Hc. by rewrite Hc. Qed.

Lemma rstrip_by_id p s : all_chars (λ c, negb (p c)) s = true -> rstrip_by p s = s.
Proof.
  induction s as [|c r IH]; simpl; [done|].
  intros [Hc Hr]%andb_prop. rewrite (IH Hr).
  apply negb_true_iff in Hc. rewrite Hc. by destruct r.
Qed.

Lemma strip_by_id p s : all_chars (λ c, negb (p c)) s = true -> strip_by p s = s.
Proof. intros H. unfold strip_by. rewrite lstrip_by_id by done. by apply rstrip_by_id. Qed.

Lemma all_chars_impl (p q : ascii -> bool) s :
  (∀ c, p c = true -> q c = true) -> all_chars p s = true -> all_chars q s = true.
Proof.
  intros Hpq. induction s as [|c r IH]; simpl; [done|].
  intros [Hc Hr]%andb_prop. by rewrite (Hpq _ Hc), IH.
Qed.

Lemma split_first sep p rest :
  all_chars (λ c, negb (Ascii.eqb c sep)) p = true ->
  split sep (p +:+ String sep rest) = p :: split sep rest.
Proof.
  induction p as [|c r IH]; simpl.
  - by rewrite Ascii.eqb_refl.
  - intros [Hc Hr]%andb_prop. apply negb_true_iff in Hc. by rewrite Hc, IH.
Qed.

Lemma uint_digits u : all_chars is_digit (NilEmpty.string_of_uint u) = true.
Proof. induction u; simpl; by rewrite ?IHu. Qed.

Lemma parse_digits_acc u acc :
  parse_digits (NilEmpty.string_of_uint u) (Z.pos acc) true
  = Some (Z.pos (Pos.of_uint_acc u acc)).
Proof.
  revert acc. induction u; intros acc; [done|..];
    cbn [NilEmpty.string_of_uint parse_digits Pos.of_uint_acc];
    change (Ascii.eqb _ "_") with false; cbv beta iota;
    rewrite <- IHu; unfold digit_val; f_equal;
    match goal with |- context [Z.of_nat ?n - 48] =>
      let d := eval vm_compute in (Z.of_nat n - 48) in
      change (Z.of_nat n - 48) with d end; lia.
Qed.

Lemma parse_digits_uint u seen :
  u ≠ Decimal.Nil ∨ seen = true ->
  parse_digits (NilEmpty.string_of_uint u) 0 seen = Some (Z.of_N (Pos.of_uint u)).
Proof.
  revert seen. induction u; intros seen Hs; simpl;
    [ destruct Hs as [?| ->]; done
    | apply IHu; by right
    | exact (parse_digits_acc u _) .. ].
Qed.

Lemma parse_digits_pos p :
  parse_digits (NilEmpty.string_of_uint (Pos.to_uint p)) 0 false = Some (Z.pos p).
Proof.
  rewrite parse_digits_uint by (left; apply Unsigned.to_uint_nonnil).
  by rewrite Unsigned.of_to.
Qed.

Lemma str_of_int_chars z : all_chars is_sign_or_digit (str_of_int z) = true.
Proof.
  destruct z as [|p|p]; simpl; [done|..];
    apply (all_chars_impl is_digit); try apply uint_digits;
    intros c Hc; unfold is_sign_or_digit; by rewrite Hc.
Qed.

Lemma is_digit_cases (P : ascii -> Prop) :
  P "0"%char -> P "1"%char -> P "2"%char -> P "3"%char -> P "4"%char ->
  P "5"%char -> P "6"%char -> P "7"%char -> P "8"%char -> P "9"%char ->
  ∀ c, is_digit c = true -> P c.
Proof.
  intros ?????????? c.
  destruct c as [[] [] [] [] [] [] [] []]; vm_compute; intros; done.
Qed.

Lemma is_space2_plain c1 c2 : is_plain c1 = true -> is_space2 c1 c2 = false.
Proof.
  unfold is_plain, is_space2. intros [_ Hc%Nat.ltb_lt]%andb_prop. cbv zeta.
  by rewrite (proj2 (Nat.eqb_neq _ 194)) by lia.
Qed.

Lemma is_space3_plain c1 c2 c3 : is_plain c1 = true -> is_space3 c1 c2 c3 = false.
Proof.
  unfold is_plain, is_space3. intros [_ Hc%Nat.ltb_lt]%andb_prop. cbv zeta.
  rewrite (proj2 (Nat.eqb_neq _ 225)), (proj2 (Nat.eqb_neq _ 226)),
    (proj2 (Nat.eqb_neq _ 227)) by lia.
  done.
Qed.

Lemma is_space_char_plain c s : is_plain c = true -> is_space_char (String c s) = false.
Proof.
  intros Hc. destruct s as [|c2 [|c3 [|c4 s]]]; cbn [is_space_char].
  - by apply andb_prop in Hc as [->%negb_true_iff _].
  - by apply is_space2_plain.
  - by apply is_space3_plain.
  - done.
Qed.

Lemma lstrip_plain c s : is_plain c = true -> lstrip (String c s) = String c s.
Proof.
  intros Hc. cbn [lstrip].
  rewrite (proj1 (negb_true_iff _) (proj1 (andb_prop _ _ Hc))).
  destruct s as [|c2 [|c3 s]]; [done|..];
    by rewrite is_space2_plain, ?is_space3_plain.
Qed.

Lemma rstrip_plain s : all_chars is_plain s = true -> rstrip s = s.
Proof.
  induction s as [|c r IH]; [done|]. cbn [all_chars rstrip].
  intros [Hc Hr]%andb_prop. rewrite (IH Hr). cbv zeta.
  by rewrite is_space_char_plain.
Qed.

(** A string without white space, such as a number [str] has written,
    is left as it is by [strip]. *)
Lemma strip_plain s : all_chars is_plain s = true -> strip s = s.
Proof.
  intros Hs. unfold strip. destruct s as [|c r]; [done|].
  rewrite lstrip_plain by (by apply andb_prop in Hs as [? _]).
  by apply rstrip_plain.
Qed.

Lemma is_digit_plain c : is_digit c = true -> is_plain c = true.
Proof. revert c. apply is_digit_cases; reflexivity. Qed.

Lemma int_of_str_digits s :
  all_chars is_digit s = true ->
  int_of_str s = of_option ValueError (parse_digits s 0 false).
Proof.
  intros Hs. unfold int_of_str.
  rewrite strip_plain by (eapply all_chars_impl, Hs; apply is_digit_plain).
  destruct s as [|c r]; [done|].
  simpl in Hs. apply andb_prop in Hs as [Hc _]. revert c Hc.
  apply is_digit_cases; reflexivity.
Qed.

Lemma int_of_str_of_int z : int_of_str (str_of_int z) = Ok z.
Proof.
  destruct z as [|p|p]; [done|..]; cbn [str_of_int].
  - rewrite int_of_str_digits by apply uint_digits.
    by rewrite parse_digits_pos.
  - unfold int_of_str.
    rewrite strip_plain.
    + by rewrite parse_digits_pos.
    + cbn [all_chars]. apply andb_true_intro; split; [done|].
      eapply all_chars_impl, uint_digits. apply is_digit_plain.
Qed.

Lemma strip_by_head (p : ascii -> bool) c s :
  p c = true -> all_chars (λ c, negb (p c)) s = true -> strip_by p (String c s) = s.
Proof.
  intros Hc Hs. unfold strip_by. cbn [lstrip_by]. rewrite Hc.
  by apply strip_by_id.
Qed.

Lemma sign_or_digit_not c d :
  is_sign_or_digit d = false -> is_sign_or_digit c = true -> negb (Ascii.eqb c d) = true.
Proof.
  intros Hd Hc. apply negb_true_iff, Ascii.eqb_neq. intros ->. congruence.
Qed.

Lemma decode_bracketed (t : Z) (rest : string) :
  decode_choice (Some ("[" +:+ str_of_int t +:+ "]" +:+ rest)) = Ok t ∧
  decode_pick ("[" +:+ str_of_int t +:+ "]" +:+ rest) = Ok t.
Proof.
  assert (Hsplit : split "]" ("[" +:+ str_of_int t +:+ "]" +:+ rest)
                   = String "[" (str_of_int t) :: split "]" rest).
  { change ("[" +:+ str_of_int t +:+ "]" +:+ rest)
      with (String "[" (str_of_int t +:+ String "]" rest)).
    cbn [split]. change (Ascii.eqb "[" "]") with false. cbv iota.
    rewrite split_first; [done|].
    eapply all_chars_impl, str_of_int_chars.
    intros c. by apply sign_or_digit_not. }
  split.
  - unfold decode_choice. rewrite Hsplit. cbn [item0 mbind result_bind bind].
    unfold strip_chars. rewrite strip_by_head.
    + apply int_of_str_of_int.
    + done.
    + eapply all_chars_impl, str_of_int_chars.
      intros c Hc. cbn [mem_char]. rewrite orb_false_r. by apply sign_or_digit_not.
  - unfold decode_pick. rewrite Hsplit.
    cbn [item0 mbind result_bind bind slice_from_1].
    apply int_of_str_of_int.
Qed.

Lemma decode_fmt_topic_label (tp : Topic) :
  decode_choice (Some (fmt_topic_label tp)) = Ok (topic tp) ∧
  decode_pick (fmt_topic_label tp) = Ok (topic tp).
Proof.
  destruct tp as [t lab kw]. unfold fmt_topic_label. cbn [topic label].
  change ("] " +:+ lab) with ("]" +:+ String " " lab). apply decode_bracketed.
Qed.

(** C5. Decoding a selection label reads the integer between the leading
    bracket and the first closing bracket: whatever follows that bracket,
    further brackets included, the decoded id is the one the label was built
    from.  Both decoders of the script (topic filter, topic evolution) do so,
    on every display string [fmt_topic_label] produces, and in particular on
    ["[12] Machine Learning"] and ["[-1] Outliers"]. *)
Theorem label_decoding :
  (∀ (t : Z) (rest : string),
     decode_choice (Some ("[" +:+ str_of_int t +:+ "]" +:+ rest)) = Ok t ∧
     decode_pick ("[" +:+ str_of_int t +:+ "]" +:+ rest) = Ok t) ∧
  (∀ tp : Topic,
     decode_choice (Some (fmt_topic_label tp)) = Ok (topic tp) ∧
     decode_pick (fmt_topic_label tp) = Ok (topic tp)) ∧
  decode_choice (Some "[12] Machine Learning") = Ok 12 ∧
  decode_choice (Some "[-1] Outliers") = Ok (-1) ∧
  decode_pick "[12] Machine Learning" = Ok 12 ∧
  decode_pick "[-1] Outliers" = Ok (-1) ∧
  decode_choice (Some "[7] Arrays [a][b] and a[i]") = Ok 7.
Proof.
  split; [exact decode_bracketed|].
  split; [exact decode_fmt_topic_label|by vm_compute].
Qed.

(** *** Runs of the script *)

Lemma bind_emit {A} (w : widget) (k : script A) :
  (emit w;; k) = (w :: k.1, k.2).
Proof. done. Qed.

Lemma bind_lift_ok {A B} (a : A) (k : A -> script B) :
  (lift (Ok a) ≫= k) = k a.
Proof. unfold mbind, script_bind, lift. cbn. by destruct (k a). Qed.

Lemma bind_lift_raise {A B} (e : exn) (k : A -> script B) :
  (lift (Raise e) ≫= k) = ([], Raise e).
Proof. done. Qed.

(** *** Percentages *)

Lemma div_round_half_even_near n d :
  0 ≤ n -> 0 < d ->
  0 ≤ div_round_half_even n d ∧ 2 * Z.abs (div_round_half_even n d * d - n) ≤ d.
Proof.
  intros Hn Hd. unfold div_round_half_even.
  pose proof (Z.div_mod n d ltac:(lia)) as Hdm.
  pose proof (Z.mod_pos_bound n d Hd) as Hr.
  pose proof (Z.div_pos n d Hn Hd) as Hq.
  destruct (Z.compare_spec (2 * (n mod d)) d) as [He|Hl|Hg];
    [destruct (Z.even (n / d))|..]; split; nia.
Qed.

Lemma tenths_nearest m e : nearest_tenths m e (tenths m e).
Proof.
  unfold nearest_tenths, tenths. destruct (Z.leb_spec 0 e) as [He|He].
  - pose proof (Z.pow_nonneg 2 e ltac:(lia)).
    split; [nia|]. split; [done|lia].
  - assert (0 < 2 ^ (- e)) as Hd by (apply Z.pow_pos_nonneg; lia).
    destruct (div_round_half_even_near (10 * Z.pos m) (2 ^ (- e))) as [H0 Hn];
      [lia|done|].
    split; [done|]. split; [lia|done].
Qed.

Lemma append_assoc (a b c : string) : (a +:+ b) +:+ c = a +:+ b +:+ c.
Proof.
  induction a as [|x a IH]; [done|].
  change (String x ((a +:+ b) +:+ c) = String x (a +:+ b +:+ c)). by rewrite IH.
Qed.

Lemma str_of_int_nonneg n :
  0 ≤ n -> all_chars is_digit (str_of_int n) = true ∧ str_of_int n ≠ "".
Proof.
  destruct n as [|p|p]; [done| |lia]. intros _. cbn [str_of_int]. split.
  - apply uint_digits.
  - pose proof (Unsigned.to_uint_nonnil p). by destruct (Pos.to_uint p).
Qed.

Lemma str_of_int_digit d :
  0 ≤ d < 10 -> ∃ c, str_of_int d = String c "" ∧ is_digit c = true.
Proof.
  intros Hd.
  assert (d = 0 ∨ d = 1 ∨ d = 2 ∨ d = 3 ∨ d = 4 ∨ d = 5 ∨ d = 6 ∨ d = 7 ∨
          d = 8 ∨ d = 9) as Hc by lia.
  repeat (destruct Hc as [->|Hc]; [eexists; split; reflexivity|]).
  subst d. eexists; split; reflexivity.
Qed.

Lemma all_chars_digit_head c s :
  all_chars is_digit (String c s) = true -> Ascii.eqb c "." = false ∧ c ≠ "-"%char.
Proof.
  cbn [all_chars]. intros [Hc _]%andb_prop. revert c Hc.
  apply is_digit_cases; by split.
Qed.

Lemma one_decimal_shape (s : bool) (ip : string) (d : ascii) :
  all_chars is_digit ip = true -> ip ≠ "" -> is_digit d = true ->
  one_decimal_pct (sign_str s +:+ ip +:+ "." +:+ String d "" +:+ "%") = true.
Proof.
  intros Hip Hne Hd. unfold one_decimal_pct.
  assert (Hrest : drop_minus (sign_str s +:+ ip +:+ "." +:+ String d "" +:+ "%")
                  = ip +:+ String "." (String d "%")).
  { destruct s; [done|]. destruct ip as [|c r]; [done|].
    destruct (all_chars_digit_head _ _ Hip) as [_ Hc].
    cbn. destruct c as [[] [] [] [] [] [] [] []]; done. }
  rewrite Hrest, split_first.
  - assert (Hd' : Ascii.eqb d "." = false).
    { by destruct (all_chars_digit_head d "" ltac:(cbn; by rewrite Hd)). }
    cbn [split]. rewrite Hd'. change (Ascii.eqb "%" ".") with false. cbv iota.
    rewrite Hip, Hd. destruct ip; [done|]. done.
  - eapply all_chars_impl, Hip. intros c Hc.
    by destruct (all_chars_digit_head c "" ltac:(cbn; by rewrite Hc)) as [-> _].
Qed.

Lemma format_1f_finite x s m e :
  Prim2SF x = S754_finite s m e ->
  ∃ t, nearest_tenths m e t ∧
       format_1f x = sign_str s +:+ str_of_int (t / 10) +:+ "." +:+ str_of_int (t mod 10) ∧
       one_decimal_pct (format_1f x +:+ "%") = true.
Proof.
  intros Hx. exists (tenths m e).
  pose proof (tenths_nearest m e) as Ht. split; [done|].
  unfold format_1f. rewrite Hx. cbv zeta. split; [done|].
  destruct Ht as [Ht _].
  destruct (str_of_int_nonneg (tenths m e / 10)) as [Hi Hne]; [by apply Z.div_pos|].
  destruct (str_of_int_digit (tenths m e mod 10)) as (c & -> & Hc);
    [by apply Z.mod_pos_bound|].
  pose proof (one_decimal_shape s _ c Hi Hne Hc) as Hs.
  revert Hs. generalize (str_of_int (tenths m e / 10)). intros ip.
  by rewrite !append_assoc.
Qed.

Lemma human_pct_ok `{FloatLiteral} x v :
  float_of x = Ok v -> human_pct x = format_1f (100.0 * v)%float +:+ "%".
Proof. intros Hx. unfold human_pct. by rewrite Hx. Qed.

Lemma human_pct_raise `{FloatLiteral} x e :
  float_of x = Raise e -> human_pct x = dash.
Proof. intros Hx. unfold human_pct. by rewrite Hx. Qed.

(** C7, as amended.  [human_pct] never raises (it is a total function to
    strings).  When [float(x)] succeeds (a bool, an int that fits a float, a
    float, a string [float] accepts) and the product [100.0 * float(x)] is a
    finite number, the result is that product in fixed notation with exactly
    one decimal place, correctly rounded, followed by the percent sign; a
    zero product gives ["0.0%"] with its sign, an infinite one ["inf%"] or
    ["-inf%"], a NaN ["nan%"].  When [float(x)] raises ([None], a list, a
    dict, a string that is no float literal, an int too large for a float)
    the result is the dash.  So [human_pct(0.1234) = "12.3%"] and
    [human_pct(None) = "–"]. *)
Theorem human_pct_spec `{FloatLiteral} (x : pyval) :
  (∀ v, float_of x = Ok v ->
     match Prim2SF (100.0 * v)%float with
     | S754_finite s m e =>
         ∃ t, nearest_tenths m e t ∧
              human_pct x = sign_str s +:+ str_of_int (t / 10) +:+ "." +:+
                            str_of_int (t mod 10) +:+ "%" ∧
              one_decimal_pct (human_pct x) = true
     | S754_zero s => human_pct x = sign_str s +:+ "0.0%"
     | S754_infinity s => human_pct x = sign_str s +:+ "inf%"
     | S754_nan => human_pct x = "nan%"
     end) ∧
  (∀ e, float_of x = Raise e -> human_pct x = dash) ∧
  human_pct PyNone = dash ∧
  (∀ l, human_pct (PyList l) = dash) ∧
  (∀ d, human_pct (PyDict d) = dash) ∧
  (∀ s, float_of_str s = None -> human_pct (PyStr s) = dash) ∧
  (∀ z, float_of_int z = Raise OverflowError -> human_pct (PyInt z) = dash) ∧
  human_pct (PyFloat 0.1234) = "12.3%".
Proof.
  split; [|split; [apply human_pct_raise|]].
  - intros v Hv. rewrite (human_pct_ok _ _ Hv).
    destruct (Prim2SF (100.0 * v)%float) as [s|s| |s m e] eqn:Hp.
    + unfold format_1f. rewrite Hp. by rewrite append_assoc.
    + unfold format_1f. rewrite Hp. by rewrite append_assoc.
    + unfold format_1f. by rewrite Hp.
    + destruct (format_1f_finite _ _ _ _ Hp) as (t & Ht & Hf & Hs).
      exists t. split; [done|]. split; [|done].
      rewrite Hf. by rewrite !append_assoc.
  - split; [done|]. split; [done|]. split; [done|]. split; [|split].
    + intros s Hs. apply (human_pct_raise _ ValueError). cbn. by rewrite Hs.
    + intros z Hz. by apply (human_pct_raise _ OverflowError).
    + by vm_compute.
Qed.

(** A float, the integer 1 (which fits a float), [None] and a string the
    parser rejects. *)
Lemma human_pct_spec_witness :
  one_decimal_pct (human_pct (H := no_float_literal) (PyFloat 0.5)) = true ∧
  human_pct (H := no_float_literal) (PyStr "abc") = dash.
Proof.
  destruct (human_pct_spec (H := no_float_literal) (PyFloat 0.5))
    as (Hok & _ & _ & _ & _ & Hstr & _).
  split.
  - specialize (Hok 0.5%float eq_refl). revert Hok.
    destruct (Prim2SF (100.0 * 0.5)%float) as [s|s| |s m e] eqn:E;
      vm_compute in E; try discriminate E.
    by intros (t & _ & _ & Hs).
  - apply Hstr. reflexivity.
Defined.

(** C7 as stated fails on numeric inputs: NaN is a float and is rendered
    ["nan%"], infinity ["inf%"], neither a percentage with one decimal
    place; the integer 10^400 is numeric and is rendered as the dash. *)
Lemma human_pct_nan_counterexample :
  human_pct (H := no_float_literal) (PyFloat (0 / 0)) = "nan%" ∧
  one_decimal_pct "nan%" = false ∧
  human_pct (H := no_float_literal) (PyFloat (1 / 0)) = "inf%" ∧
  one_decimal_pct "inf%" = false ∧
  human_pct (H := no_float_literal) (PyInt (10 ^ 400)) = dash.
Proof. by vm_compute. Qed.

(** *** Visão geral *)

(** C1. The script shows [topics.height] under the label "Temas (sem -1)":
    the count of all rows of the topics table, the row of topic -1
    included.  On a table with the outlier row and one topic it shows 2,
    where one row has an id other than -1. *)
Theorem overview_topic_count_is_height `{FloatLiteral} `{Engine}
    (docs : list Doc) (topics : list Topic) (doc_topics : list DocTopic)
    (trends : list Trend) :
  metric_of "Temas (sem -1)" (page_overview docs topics doc_topics trends).1
    = Some (str_of_int (height topics)) ∧
  metric_of "Temas (sem -1)"
    (page_overview (H := no_float_literal) ex_docs ex_topics ex_doc_topics ex_trends).1
    = Some "2" ∧
  height (filter (λ t, topic t ≠ -1) ex_topics) = 1.
Proof.
  split; [|by vm_compute].
  unfold page_overview. by destruct (int_truediv _ _).
Qed.






(** *** The manifest *)

(** C8. [load_manifest] returns a value in every case, and the empty dict
    when the file is missing, when reading it raises, and when its text does
    not parse.  On the empty dict every [get(key, default)] gives the
    default, and the sidebar, testing [if manifest:], shows only the
    "not found" caption. *)
Theorem load_manifest_empty `{FloatLiteral} `{JsonParser} (fp : file) :
  (file_exists fp = false -> load_manifest fp = empty_dict) ∧
  (∀ e, read_text fp = Raise e -> load_manifest fp = empty_dict) ∧
  (∀ text, read_text fp = Ok text -> json_loads text = None ->
     load_manifest fp = empty_dict) ∧
  (∀ key default, dict_get empty_dict key default = Ok default) ∧
  sidebar empty_dict = ([Caption "Manifesto não encontrado (_manifest.json)."], Ok ()).
Proof.
  unfold load_manifest. split; [|split; [|split; [|split]]].
  - by intros ->.
  - intros e ->. by destruct (file_exists fp).
  - intros text -> Hp. cbn. rewrite Hp. by destruct (file_exists fp).
  - done.
  - done.
Qed.

(** A missing file, and a file whose text the parser rejects. *)
Lemma load_manifest_empty_witness :
  load_manifest (H := λ _, None) {| file_exists := false; read_text := Raise OSError |}
    = empty_dict ∧
  load_manifest (H := λ _, None) {| file_exists := true; read_text := Ok "{" |}
    = empty_dict.
Proof.
  split.
  - by apply (load_manifest_empty (H := no_float_literal) (H0 := λ _, None)).
  - destruct (load_manifest_empty (H := no_float_literal) (H0 := λ _, None)
                {| file_exists := true; read_text := Ok "{" |}) as (_ & _ & Hp & _).
    by apply (Hp "{").
Defined.

(** *** Filtrar TCCs por tema *)

Lemma merge_sort_nil {A} (R : relation A) `{∀ x y, Decision (R x y)} (l : list A) :
  merge_sort R l = [] ↔ l = [].
Proof.
  split; [|by intros ->].
  intros Hs. apply Permutation_nil_r. rewrite <- Hs. by rewrite merge_sort_Permutation.
Qed.

Lemma sort_nil {A} (leb : A -> A -> bool) (l : list A) : sort leb l = [] ↔ l = [].
Proof. apply merge_sort_nil. Qed.

Lemma filter_nil_iff {A} (P : A -> Prop) `{∀ x, Decision (P x)} (l : list A) :
  filter P l = [] ↔ ∀ x, x ∈ l -> ¬ P x.
Proof.
  split.
  - intros Hf x Hx HP. by eapply filter_nil_not_elem_of.
  - intros Hn. induction l as [|a l IH]; [done|].
    rewrite filter_cons_False by (apply Hn; left).
    apply IH. intros x Hx. apply Hn. by right.
Qed.

(** C9. On the topic-filter page, when no row of the trends table carries
    the selected topic, the trend query is empty and the page ends normally
    with the "no time series" notice in place of the chart. *)
Theorem filter_page_without_trend_rows
    (topics : list Topic) (dwt : list DocWithTopic) (trends : list Trend)
    (pick : nat) (tp : Topic) :
  sort by_topic topics !! pick = Some tp ->
  (∀ r, r ∈ trends -> tr_topic r ≠ topic tp) ->
  t_trend trends (topic tp) = [] ∧
  page_filter topics dwt trends pick
  = ([Title "Filtrar TCCs por tema";
      Caption ("Tema selecionado: " +:+ str_of_int (topic tp));
      Write ("**TCCs no tema [" +:+ str_of_int (topic tp) +:+ "]** — " +:+
             str_of_int (height (subset dwt (topic tp))) +:+ " documentos");
      DataFrame (ThesisTable (subset dwt (topic tp)));
      Info no_series],
     Ok ()).
Proof.
  intros Hpick Hno.
  assert (Ht : t_trend trends (topic tp) = []).
  { unfold t_trend. apply sort_nil, filter_nil_iff. intros r Hr. by apply Hno. }
  split; [done|].
  unfold page_filter, selectbox, display_opts.
  rewrite list_lookup_fmap, Hpick. cbn [fmap option_fmap option_map].
  rewrite (proj1 (decode_fmt_topic_label tp)).
  rewrite !bind_emit, bind_lift_ok, !bind_emit, Ht. done.
Qed.

(** The example topics, the second option picked (topic 0), and trends that
    only know topic 1. *)
Lemma filter_page_without_trend_rows_witness :
  t_trend ex_trends 0 = [] ∧
  (page_filter ex_topics [] ex_trends 1).2 = Ok ().
Proof.
  destruct (filter_page_without_trend_rows ex_topics [] ex_trends 1
              (topic_row 0 "Machine Learning")) as [Ht Hp].
  - reflexivity.
  - intros r Hr. cbn [topic_row topic].
    repeat (apply elem_of_cons in Hr as [->|Hr]; [done|]).
    by apply elem_of_nil in Hr.
  - split; [exact Ht|]. by rewrite Hp.
Defined.

(** *** The joined view *)

Lemma filter_unique_key {A K} `{EqDecision K} (key : A -> K) (k : K) (l : list A) :
  NoDup (key <$> l) ->
  filter (λ a, key a = k) l = option_list (snd <$> list_find (λ a, key a = k) l).
Proof.
  induction l as [|a l IH]; [done|].
  rewrite fmap_cons, NoDup_cons. intros [Ha Hl]. cbn [list_find].
  destruct (decide (key a = k)) as [Hk|Hk].
  - rewrite filter_cons_True by done. cbn. f_equal.
    apply filter_nil_iff. intros x Hx Hxk. apply Ha.
    rewrite Hk, <- Hxk. by apply list_elem_of_fmap_2.
  - rewrite filter_cons_False by done. rewrite (IH Hl).
    by destruct (list_find _ l) as [[i x]|].
Qed.

Lemma lookup_doc_is_Some (docs : list Doc) (id : string) :
  is_Some (lookup_doc docs id) ↔ id ∈ DOC_ID <$> docs.
Proof.
  unfold lookup_doc. rewrite fmap_is_Some. split.
  - intros [[i d] Hf]. apply list_find_Some in Hf as (Hi & <- & _).
    eapply list_elem_of_fmap_2, list_elem_of_lookup_2, Hi.
  - intros (d & -> & Hd)%list_elem_of_fmap.
    by apply (list_find_elem_of _ _ d).
Qed.

Lemma join_inner_Permutation `{Engine} {A B C K} `{EqDecision K}
    (ka : A -> K) (kb : B -> K) (mk : A -> B -> C) (df : list A) (other : list B) :
  join_inner ka kb mk df other ≡ₚ inner_rows ka kb mk df other.
Proof. apply row_order_perm. Qed.

Lemma join_left_Permutation `{Engine} {A B C K} `{EqDecision K}
    (ka : A -> K) (kb : B -> K) (mk : A -> option B -> C) (df : list A) (other : list B) :
  join_left ka kb mk df other ≡ₚ left_rows ka kb mk df other.
Proof. apply row_order_perm. Qed.

Lemma left_rows_Permutation {A B C K} `{EqDecision K}
    (ka : A -> K) (kb : B -> K) (mk : A -> option B -> C) (l l' : list A) (other : list B) :
  l ≡ₚ l' -> left_rows ka kb mk l other ≡ₚ left_rows ka kb mk l' other.
Proof. intros Hl. unfold left_rows. by rewrite Hl. Qed.

(** The rows of the view do not depend on the engine: they are those of
    the two joins with the rows as the frames list them. *)
Lemma doc_with_topic_listed `{Engine} docs topics doc_topics :
  doc_with_topic docs topics doc_topics
  ≡ₚ doc_with_topic (H := listed_order) docs topics doc_topics.
Proof.
  unfold doc_with_topic. rewrite join_left_Permutation.
  etrans; [apply left_rows_Permutation, join_inner_Permutation|done].
Qed.

Lemma doc_with_topic_cons docs topics dt doc_topics :
  doc_with_topic (H := listed_order) docs topics (dt :: doc_topics)
  = doc_with_topic (H := listed_order) docs topics [dt] ++
    doc_with_topic (H := listed_order) docs topics doc_topics.
Proof.
  unfold doc_with_topic, join_left, join_inner, left_rows, inner_rows.
  cbn [row_order listed_order].
  change (dt :: doc_topics) with ([dt] ++ doc_topics).
  by rewrite !bind_app.
Qed.

Lemma doc_with_topic_one docs topics dt :
  NoDup (DOC_ID <$> docs) -> NoDup (topic <$> topics) ->
  doc_with_topic (H := listed_order) docs topics [dt]
  = option_list
      ((λ d, {| assignment := dt; document := d;
                dwt_label := lookup_label topics (dt_topic dt) |}) <$>
       lookup_doc docs (dt_DOC_ID dt)).
Proof.
  intros Hd Ht.
  unfold doc_with_topic, join_left, join_inner, left_rows, inner_rows, lookup_doc.
  cbn [row_order listed_order].
  cbn [mbind list_bind]. rewrite app_nil_r.
  rewrite (filter_unique_key DOC_ID _ docs Hd).
  destruct (list_find _ docs) as [[i d]|]; [|done].
  cbn. rewrite app_nil_r. unfold lookup_label, topic_labels.
  assert (Hk : NoDup (fst <$> ((λ t, (topic t, label t)) <$> topics))).
  { by rewrite <- list_fmap_compose. }
  rewrite (filter_unique_key fst _ _ Hk).
  rewrite list_find_fmap. unfold compose. cbn [fst].
  by destruct (list_find _ topics) as [[j tp]|].
Qed.

Lemma doc_with_topic_listed_spec docs topics doc_topics :
  NoDup (DOC_ID <$> docs) -> NoDup (topic <$> topics) ->
  doc_with_topic (H := listed_order) docs topics doc_topics
  = spec_doc_with_topic docs topics doc_topics.
Proof.
  intros Hd Ht. induction doc_topics as [|dt dts IH]; [done|].
  rewrite doc_with_topic_cons, IH, doc_with_topic_one by done.
  unfold spec_doc_with_topic. cbn [omap list_omap].
  by destruct (lookup_doc docs (dt_DOC_ID dt)).
Qed.

Lemma spec_doc_with_topic_length docs topics doc_topics :
  length (spec_doc_with_topic docs topics doc_topics)
  = length (matching_rows docs doc_topics).
Proof.
  unfold spec_doc_with_topic, matching_rows.
  induction doc_topics as [|dt dts IH]; [done|].
  cbn [omap list_omap]. pose proof (lookup_doc_is_Some docs (dt_DOC_ID dt)) as Hs.
  destruct (lookup_doc docs (dt_DOC_ID dt)) as [d|].
  - rewrite filter_cons_True by (apply Hs; eauto). cbn. by rewrite <- IH.
  - rewrite filter_cons_False; [done|].
    intros Hin. apply Hs in Hin. by destruct Hin.
Qed.

(** C4.  With document ids unique in [docs] and topic ids unique in
    [topics] (the invariants of the data model), the view the script builds
    (inner join of [doc_topics] with [docs] on the document id, then left
    join with the topic labels on the topic id) holds the rows of the view
    of the data model: every [doc_topics] row with its document, dropped
    when it has none, and with the label of its topic, empty when it has
    none.  It has as many rows as [doc_topics] has rows whose document id
    occurs in [docs].  Its rows are determined by the three tables: whatever
    order the engine gives the rows of a join, the view holds the same rows,
    each as often. *)
Theorem doc_with_topic_spec `{Engine} (docs : list Doc) (topics : list Topic)
    (doc_topics : list DocTopic) :
  NoDup (DOC_ID <$> docs) -> NoDup (topic <$> topics) ->
  doc_with_topic docs topics doc_topics ≡ₚ spec_doc_with_topic docs topics doc_topics ∧
  length (doc_with_topic docs topics doc_topics) = length (matching_rows docs doc_topics) ∧
  (∀ other : Engine,
     doc_with_topic (H := other) docs topics doc_topics
     ≡ₚ doc_with_topic docs topics doc_topics).
Proof.
  intros Hd Ht.
  assert (Hp : doc_with_topic docs topics doc_topics
               ≡ₚ spec_doc_with_topic docs topics doc_topics).
  { by rewrite doc_with_topic_listed, doc_with_topic_listed_spec. }
  split; [done|]. split.
  - by rewrite Hp, spec_doc_with_topic_length.
  - intros other.
    by rewrite (doc_with_topic_listed (H := other)), <- doc_with_topic_listed.
Qed.

(** The example tables: two documents, both assigned; the joins' rows in
    the order of the frames. *)
Lemma doc_with_topic_spec_witness :
  length (doc_with_topic (H := listed_order) ex_docs ex_topics ex_doc_topics) = 2%nat.
Proof.
  destruct (doc_with_topic_spec (H := listed_order) ex_docs ex_topics ex_doc_topics)
    as (_ & Hlen & _).
  - by apply (bool_decide_unpack _); vm_compute.
  - by apply (bool_decide_unpack _); vm_compute.
  - rewrite Hlen. reflexivity.
Defined.

(** *** Perfil do orientador *)

Lemma elem_of_sort {A} (leb : A -> A -> bool) (l : list A) (x : A) :
  x ∈ sort leb l ↔ x ∈ l.
Proof. unfold sort. by rewrite merge_sort_Permutation. Qed.

Lemma sort_Permutation {A} (leb : A -> A -> bool) (l : list A) : sort leb l ≡ₚ l.
Proof. apply merge_sort_Permutation. Qed.

Lemma filter_unique_elem {A K} `{EqDecision K} (key : A -> K) (l : list A) (a : A) :
  NoDup (key <$> l) -> a ∈ l -> filter (λ b, key b = key a) l = [a].
Proof.
  intros Hn Ha.
  assert (Hin : a ∈ filter (λ b, key b = key a) l) by by apply list_elem_of_filter.
  rewrite (filter_unique_key key _ l Hn) in Hin |- *.
  destruct (list_find _ l) as [[i b]|]; cbn in *.
  - by apply list_elem_of_singleton in Hin as ->.
  - by apply elem_of_nil in Hin.
Qed.

Lemma is_empty_false {A} (l : list A) (x : A) : x ∈ l -> is_empty l = false.
Proof. by destruct 1. Qed.

Lemma elem_of_tccs (dwt : list DocWithTopic) (oid : string) (r : AdvisorThesisRow) :
  r ∈ tccs dwt oid ↔
  ∃ w, w ∈ dwt ∧ orientador_id (document w) = oid ∧ r = advisor_thesis_row w.
Proof.
  unfold tccs. rewrite elem_of_sort, list_elem_of_fmap.
  split.
  - intros (w & -> & [Hw Hin]%list_elem_of_filter). eauto.
  - intros (w & Hin & Hw & ->). exists w. split; [done|].
    by apply list_elem_of_filter.
Qed.

Lemma elem_of_join_left `{Engine} {A B C K} `{EqDecision K}
    (ka : A -> K) (kb : B -> K) (mk : A -> option B -> C)
    (l : list A) (other : list B) (c : C) :
  c ∈ join_left ka kb mk l other ↔
  ∃ a, a ∈ l ∧
       ((∃ b, b ∈ other ∧ kb b = ka a ∧ c = mk a (Some b)) ∨
        ((∀ b, b ∈ other -> kb b ≠ ka a) ∧ c = mk a None)).
Proof.
  rewrite join_left_Permutation. unfold left_rows.
  rewrite list_elem_of_bind. split.
  - intros (a & Hc & Ha). exists a. split; [done|].
    destruct (filter _ other) as [|b bs] eqn:Hf.
    + right. apply list_elem_of_singleton in Hc. split; [|done].
      intros b Hb Hk. by eapply (filter_nil_not_elem_of _ other b Hf).
    + left. apply list_elem_of_fmap in Hc as (b' & -> & Hb').
      rewrite <- Hf in Hb'. apply list_elem_of_filter in Hb' as [? ?]. eauto.
  - intros (a & Ha & [(b & Hb & Hk & ->)|[Hno ->]]); exists a; (split; [|done]).
    + assert (Hin : b ∈ filter (λ b, kb b = ka a) other)
        by by apply list_elem_of_filter.
      destruct (filter _ other) as [|b0 bs]; [by apply elem_of_nil in Hin|].
      apply list_elem_of_fmap. eauto.
    + rewrite (proj2 (filter_nil_iff (λ b, kb b = ka a) other)) by done.
      by apply list_elem_of_singleton.
Qed.

Lemma elem_of_dist `{Engine} (ats : list AdvisorTopic) (topics : list Topic) (oid : string)
    (x : AdvisorTopic * option string) :
  x ∈ dist ats topics oid ->
  x.1 ∈ ats ∧ at_orientador_id x.1 = oid.
Proof.
  unfold dist. rewrite elem_of_sort, elem_of_join_left.
  intros (a & [Ha Hid]%list_elem_of_filter & [(b & _ & _ & ->)|[_ ->]]); done.
Qed.

Lemma dist_complete `{Engine} (ats : list AdvisorTopic) (topics : list Topic) (oid : string)
    (a : AdvisorTopic) :
  a ∈ ats -> at_orientador_id a = oid -> ∃ lab, (a, lab) ∈ dist ats topics oid.
Proof.
  intros Ha Hid. unfold dist. setoid_rewrite elem_of_sort.
  setoid_rewrite elem_of_join_left.
  destruct (decide (Exists (λ b : Z * string, b.1 = at_topic a) (topic_labels topics)))
    as [(b & Hb & Hk)%Exists_exists|Hn].
  - exists (Some b.2), a. split; [by apply list_elem_of_filter|]. left. eauto.
  - exists None, a. split; [by apply list_elem_of_filter|]. right. split; [|done].
    intros b Hb Hk. apply Hn, Exists_exists. eauto.
Qed.

Lemma resolve_oid_unique (profiles : list AdvisorProfile) (p : AdvisorProfile) :
  NoDup (ap_orientador_nome <$> profiles) -> p ∈ profiles ->
  resolve_oid profiles (ap_orientador_nome p) = Ok (ap_orientador_id p).
Proof.
  intros Hn Hp. unfold resolve_oid.
  by rewrite (filter_unique_elem ap_orientador_nome profiles p Hn Hp).
Qed.

Lemma resolve_oid_not_single (profiles : list AdvisorProfile) (choice : string) :
  length (filter (λ p, ap_orientador_nome p = choice) profiles) ≠ 1%nat ->
  resolve_oid profiles choice = Raise ValueError.
Proof.
  unfold resolve_oid. by destruct (filter _ profiles) as [|a [|b l]].
Qed.

Lemma perfil_of_elem (profiles : list AdvisorProfile) (p : AdvisorProfile) :
  p ∈ profiles ->
  ∃ perfil, perfil_of profiles (ap_orientador_id p) = Ok perfil ∧
            perfil ∈ profiles ∧ ap_orientador_id perfil = ap_orientador_id p.
Proof.
  intros Hp. unfold perfil_of.
  assert (Hin : p ∈ filter (λ q, ap_orientador_id q = ap_orientador_id p) profiles)
    by by apply list_elem_of_filter.
  destruct (filter _ profiles) as [|q l] eqn:Hf; [by apply elem_of_nil in Hin|].
  exists q. split; [done|].
  assert (Hq : q ∈ filter (λ q, ap_orientador_id q = ap_orientador_id p) profiles)
    by (rewrite Hf; left).
  apply list_elem_of_filter in Hq as [? ?]. done.
Qed.

(** C2, as amended.  The selected name is resolved with [item()], which
    asks for exactly one row: when the advisor names are unique the name of
    the selected option resolves to the id of the one profile that carries
    it, and the page shows that advisor's record, the rows of
    DocumentWithTopic with that advisor id and the rows of the advisor-topic
    table with that advisor id.  When the number of rows with the selected
    name is not one (several advisors share it), the lookup raises
    [ValueError]; no first match is taken. *)
Theorem profile_lookup `{Engine} (profiles : list AdvisorProfile) (ats : list AdvisorTopic)
    (topics : list Topic) (dwt : list DocWithTopic) (pick : nat) (choice : string) :
  selectbox (orient_opts profiles) pick = Some choice ->
  (NoDup (ap_orientador_nome <$> profiles) ->
   ∃ p perfil,
     p ∈ profiles ∧ ap_orientador_nome p = choice ∧
     resolve_oid profiles choice = Ok (ap_orientador_id p) ∧
     perfil ∈ profiles ∧ ap_orientador_id perfil = ap_orientador_id p ∧
     page_profile profiles ats topics dwt pick
     = ([Title "Perfil do orientador";
         Subheader choice;
         Metric "TCCs orientados" (str_of_int (n_tccs perfil));
         Metric "Anos de atuação" (str_of_int (anos_atuacao perfil));
         Metric "Temas principais" (temas_top perfil);
         Markdown "#### Trabalhos orientados";
         DataFrame (AdvisorThesisTable (tccs dwt (ap_orientador_id p)));
         Markdown "#### Distribuição de temas (no orientador)";
         if negb (is_empty (dist ats topics (ap_orientador_id p)))
         then Chart (AdvisorTopicTable (dist ats topics (ap_orientador_id p)))
         else Info "Sem distribuição de temas calculada para este orientador."],
        Ok ()) ∧
     (∀ r, r ∈ tccs dwt (ap_orientador_id p) ↔
           ∃ w, w ∈ dwt ∧ orientador_id (document w) = ap_orientador_id p ∧
                r = advisor_thesis_row w) ∧
     (∀ x, x ∈ dist ats topics (ap_orientador_id p) ->
           x.1 ∈ ats ∧ at_orientador_id x.1 = ap_orientador_id p) ∧
     (∀ a, a ∈ ats -> at_orientador_id a = ap_orientador_id p ->
           ∃ lab, (a, lab) ∈ dist ats topics (ap_orientador_id p))) ∧
  (length (filter (λ p, ap_orientador_nome p = choice) profiles) ≠ 1%nat ->
   resolve_oid profiles choice = Raise ValueError ∧
   page_profile profiles ats topics dwt pick
   = ([Title "Perfil do orientador"], Raise ValueError)).
Proof.
  intros Hsel.
  assert (Hopt : choice ∈ orient_opts profiles).
  { by eapply list_elem_of_lookup_2. }
  assert (Hpage : ∀ k : string -> script unit,
            (emit (Title "Perfil do orientador");;
             if is_empty (orient_opts profiles)
             then emit (Warning "Sem perfis de orientadores disponíveis.")
             else choice ← lift (of_option AttributeError
                                   (selectbox (orient_opts profiles) pick));
                  k choice)
            = (Title "Perfil do orientador" :: (k choice).1, (k choice).2)).
  { intros k. rewrite (is_empty_false _ _ Hopt), Hsel. cbn [of_option].
    by rewrite bind_emit, bind_lift_ok. }
  split.
  - intros Hn.
    unfold orient_opts in Hopt.
    apply list_elem_of_fmap in Hopt as (p & -> & Hp%elem_of_sort).
    destruct (perfil_of_elem profiles p Hp) as (perfil & Hperfil & Hin & Hid).
    exists p, perfil.
    pose proof (resolve_oid_unique profiles p Hn Hp) as Hres.
    repeat (split; [done|]).
    split; [|split; [apply elem_of_tccs|split; [apply elem_of_dist|apply dist_complete]]].
    unfold page_profile. rewrite Hpage, Hres, bind_lift_ok, Hperfil, bind_lift_ok.
    rewrite !bind_emit. by destruct (is_empty (dist _ _ _)).
  - intros Hlen. pose proof (resolve_oid_not_single profiles choice Hlen) as Hres.
    split; [done|]. unfold page_profile. by rewrite Hpage, Hres.
Qed.

(** Two advisors with different names, the first option picked; and two
    advisors sharing one name. *)
Lemma profile_lookup_witness :
  (page_profile (H := listed_order)
     [profile_row "o1" "Ana" 3; profile_row "o2" "Bob" 5] [] [] [] 0).2 = Ok () ∧
  resolve_oid [profile_row "o1" "Ana" 3; profile_row "o2" "Ana" 5] "Ana" = Raise ValueError.
Proof.
  split.
  - destruct (profile_lookup (H := listed_order)
                [profile_row "o1" "Ana" 3; profile_row "o2" "Bob" 5]
                [] [] [] 0 "Ana" eq_refl) as [Hu _].
    destruct Hu as (p & perfil & _ & _ & _ & _ & _ & Hpage & _).
    + by apply (bool_decide_unpack _); vm_compute.
    + by rewrite Hpage.
  - destruct (profile_lookup (H := listed_order)
                [profile_row "o1" "Ana" 3; profile_row "o2" "Ana" 5]
                [] [] [] 0 "Ana" eq_refl) as [_ Hd].
    apply Hd. by vm_compute.
Defined.

(** C2 as stated: with two profiles named "Ana" the lookup does not take
    the first match (id "o1"); it raises, and the page stops after its
    title. *)
Lemma profile_duplicate_name_counterexample :
  selectbox (orient_opts [profile_row "o1" "Ana" 3; profile_row "o2" "Ana" 5]) 0
    = Some "Ana" ∧
  ap_orientador_id <$>
    filter (λ p, ap_orientador_nome p = "Ana")
      [profile_row "o1" "Ana" 3; profile_row "o2" "Ana" 5] = ["o1"; "o2"] ∧
  resolve_oid [profile_row "o1" "Ana" 3; profile_row "o2" "Ana" 5] "Ana"
    = Raise ValueError ∧
  page_profile (H := listed_order)
    [profile_row "o1" "Ana" 3; profile_row "o2" "Ana" 5] [] [] [] 0
    = ([Title "Perfil do orientador"], Raise ValueError).
Proof. by vm_compute. Qed.

(** *** Top temas *)

Lemma StronglySorted_iff {A} (R R' : relation A) (l : list A) :
  (∀ a b, R a b ↔ R' a b) -> StronglySorted R l -> StronglySorted R' l.
Proof.
  intros HR. induction 1 as [|a l Hs IH Hall]; constructor; [done|].
  eapply Forall_impl; [exact Hall|]. intros b. apply HR.
Qed.

Lemma sort_StronglySorted {A} (leb : A -> A -> bool) (R : relation A) (l : list A) :
  (∀ a b, leb a b ↔ R a b) -> Transitive R -> Total R ->
  StronglySorted R (sort leb l).
Proof.
  intros HR Htrans Htotal. apply (StronglySorted_iff (λ a b, leb a b)); [done|].
  unfold sort. apply StronglySorted_merge_sort.
  - intros a b c. rewrite !HR. apply Htrans.
  - intros a b. rewrite !HR. apply Htotal.
Qed.








(** *** Pesquisar orientadores *)

Lemma n_tccs_desc_sorted (rows : list AdvisorRow) :
  StronglySorted n_tccs_desc (sort by_n_tccs_desc rows).
Proof.
  apply sort_StronglySorted.
  - intros a b. unfold by_n_tccs_desc, n_tccs_desc. apply bool_decide_spec.
  - intros a b c. unfold n_tccs_desc. lia.
  - intros a b. unfold n_tccs_desc. lia.
Qed.

(** With a keyword list that lacks one of the two keywords the script
    passes, every non-blank query ends in a [TypeError]. *)
Lemma search_base_unknown_keyword `{StrContains} (q : string)
    (profiles : list AdvisorProfile) :
  strip q ≠ "" ->
  ¬ ("literal" ∈ str_contains_keywords ∧ "case" ∈ str_contains_keywords) ->
  search_base q profiles = Raise TypeError.
Proof.
  intros Hq Hk. unfold search_base.
  rewrite (proj2 (String.eqb_neq _ _) Hq). cbn [negb]. unfold str_contains.
  rewrite bool_decide_eq_false_2; [done|].
  intros Hall. apply Hk.
  apply Forall_cons in Hall as [Hl Hall]. apply Forall_cons in Hall as [Hc _].
  done.
Qed.

Lemma signature_without_case :
  ¬ ("literal" ∈ @str_contains_keywords str_contains_signature ∧
     "case" ∈ @str_contains_keywords str_contains_signature).
Proof.
  intros [_ Hc]. unfold str_contains_keywords, str_contains_signature in Hc.
  repeat (apply elem_of_cons in Hc as [Hc|Hc]; [done|]).
  by apply elem_of_nil in Hc.
Qed.

(** C3. A query that is empty or white space keeps all advisor profiles:
    the page shows their number and their table in descending order of
    thesis count.  Any other query is handed to [str.contains] with the
    keyword [case], which Polars' [str.contains] does not have: the call
    raises [TypeError] and the page ends after its title, whatever the
    query and the profiles; no row is searched.  On the profiles Ana,
    Mariana and Bob the query "ana", which two of the names contain, letter
    case apart, ends the page so; the blank query shows all three. *)
Theorem advisor_search (q : string) (profiles : list AdvisorProfile) :
  (strip q = "" ->
   page_search (H := str_contains_signature) q profiles
   = ([Title "Pesquisar orientadores";
       Caption ("Resultados: " +:+ str_of_int (height profiles));
       DataFrame (AdvisorTable (search_table profiles))],
      Ok (Some ())) ∧
   search_table profiles ≡ₚ advisor_row <$> profiles ∧
   StronglySorted n_tccs_desc (search_table profiles)) ∧
  (strip q ≠ "" ->
   search_base (H := str_contains_signature) q profiles = Raise TypeError ∧
   page_search (H := str_contains_signature) q profiles
   = ([Title "Pesquisar orientadores"], Raise TypeError)) ∧
  filter (λ p, contains_nocase "ana" (ap_orientador_nome p)) ex_profiles
  = [profile_row "o1" "Ana" 3; profile_row "o2" "Mariana" 5] ∧
  page_search (H := str_contains_signature) "ana" ex_profiles
  = ([Title "Pesquisar orientadores"], Raise TypeError) ∧
  page_search (H := str_contains_signature) "  " ex_profiles
  = ([Title "Pesquisar orientadores"; Caption "Resultados: 3";
      DataFrame (AdvisorTable
                   [advisor_row (profile_row "o2" "Mariana" 5);
                    advisor_row (profile_row "o3" "Bob" 4);
                    advisor_row (profile_row "o1" "Ana" 3)])],
     Ok (Some ())).
Proof.
  split; [|split; [|by vm_compute]].
  - intros Hq. split; [|split].
    + unfold page_search, search_base. rewrite Hq. cbn [String.eqb negb].
      by rewrite bind_emit, bind_lift_ok.
    + apply sort_Permutation.
    + apply n_tccs_desc_sorted.
  - intros Hq.
    pose proof (search_base_unknown_keyword (H := str_contains_signature)
                  q profiles Hq signature_without_case) as Hb.
    split; [done|]. unfold page_search. by rewrite bind_emit, Hb.
Qed.

(** ** Further properties of the script *)

(** *** Paths *)

Lemma candidates_take (start : path) :
  start :: parents start
  = (λ n, take n start) <$> reverse (seq 0 (S (length start))).
Proof.
  unfold parents. rewrite seq_S, reverse_app. cbn [reverse rev_append app fmap list_fmap].
  change (rev_append [] [(0 + length start)%nat]) with [length start].
  cbn [app fmap list_fmap]. by rewrite Nat.add_0_l, firstn_all.
Qed.

Lemma first_root_spec (exists_ : path -> bool) (candidates : list path) (start : path) :
  (first_root exists_ candidates start = start ∧
   ∀ c, c ∈ candidates -> has_data_and_notebooks exists_ c = false) ∨
  (∃ i, candidates !! i = Some (first_root exists_ candidates start) ∧
        has_data_and_notebooks exists_ (first_root exists_ candidates start) = true ∧
        ∀ j c, (j < i)%nat -> candidates !! j = Some c ->
               has_data_and_notebooks exists_ c = false).
Proof.
  induction candidates as [|p rest IH]; cbn [first_root].
  - left. split; [done|]. intros c Hc. by apply elem_of_nil in Hc.
  - destruct (has_data_and_notebooks exists_ p) eqn:Hp.
    + right. exists 0%nat. split; [done|]. split; [done|]. intros j c Hj. lia.
    + destruct IH as [[Hs Hno]|(i & Hi & Hq & Hmin)].
      * left. split; [done|]. intros c [->|Hc]%elem_of_cons; [done|by apply Hno].
      * right. exists (S i). split; [done|]. split; [done|].
        intros [|j] c Hj Hc; [by simplify_eq/=|]. apply (Hmin j); [lia|done].
Qed.

Lemma candidates_lookup (start : path) (i : nat) :
  (i ≤ length start)%nat ->
  (start :: parents start) !! i = Some (take (length start - i) start).
Proof.
  intros Hi. rewrite candidates_take, list_lookup_fmap.
  rewrite reverse_lookup by (rewrite length_seq; lia).
  rewrite length_seq, lookup_seq_lt by lia. cbn. do 2 f_equal; lia.
Qed.

Lemma candidates_length (start : path) :
  length (start :: parents start) = S (length start).
Proof. by rewrite candidates_take, length_fmap, length_reverse, length_seq. Qed.

Lemma prefix_is_take (p start : path) : p `prefix_of` start -> p = take (length p) start.
Proof. intros [k ->]. by rewrite take_app_length. Qed.

Lemma take_prefix (n : nat) (start : path) : take n start `prefix_of` start.
Proof. exists (drop n start). by rewrite take_drop. Qed.

(** X1. [find_project_root] returns [start] or one of its ancestors.  When
    some directory among them holds both [data] and [notebooks], it returns
    the nearest such one (every other one is an ancestor of the result);
    when none does, it falls back to [start]. *)
Theorem find_project_root_nearest (exists_ : path -> bool) (start : path) :
  find_project_root exists_ start `prefix_of` start ∧
  ((has_data_and_notebooks exists_ (find_project_root exists_ start) = true ∧
    ∀ p, p `prefix_of` start -> has_data_and_notebooks exists_ p = true ->
         p `prefix_of` find_project_root exists_ start) ∨
   (find_project_root exists_ start = start ∧
    ∀ p, p `prefix_of` start -> has_data_and_notebooks exists_ p = false)).
Proof.
  unfold find_project_root.
  destruct (first_root_spec exists_ (start :: parents start) start)
    as [[Hs Hno]|(i & Hi & Hq & Hmin)].
  - rewrite Hs. split; [done|]. right. split; [done|].
    intros p Hp. apply Hno. rewrite (prefix_is_take p start Hp).
    assert (length p ≤ length start)%nat as Hl by by apply prefix_length.
    apply (list_elem_of_lookup_2 _ (length start - length p)%nat).
    etrans; [apply candidates_lookup; lia|]. do 2 f_equal; lia.
  - assert (i ≤ length start)%nat as Hil.
    { apply lookup_lt_Some in Hi. rewrite candidates_length in Hi. lia. }
    rewrite candidates_lookup in Hi by done.
    assert (Hr : first_root exists_ (start :: parents start) start
                 = take (length start - i) start) by congruence.
    clear Hi. rewrite Hr in *. split; [apply take_prefix|]. left. split; [done|].
    intros p Hp Hqp.
    assert (length p ≤ length start)%nat as Hl by by apply prefix_length.
    destruct (decide (length p ≤ length start - i)%nat) as [Hle|Hgt].
    + rewrite (prefix_is_take p start Hp).
      replace (take (length p) start)
        with (take (length p) (take (length start - i) start))
        by (rewrite take_take; f_equal; lia).
      apply take_prefix.
    + rewrite (Hmin (length start - length p)%nat p) in Hqp; [done|lia|].
      etrans; [apply candidates_lookup; lia|].
      rewrite (prefix_is_take p start Hp) at 2. do 2 f_equal; lia.
Qed.

(** *** The joined view, without key uniqueness *)

Lemma elem_of_join_inner `{Engine} {A B C K} `{EqDecision K}
    (ka : A -> K) (kb : B -> K) (mk : A -> B -> C)
    (l : list A) (other : list B) (c : C) :
  c ∈ join_inner ka kb mk l other ↔
  ∃ a b, a ∈ l ∧ b ∈ other ∧ kb b = ka a ∧ c = mk a b.
Proof.
  rewrite join_inner_Permutation. unfold inner_rows.
  rewrite list_elem_of_bind. split.
  - intros (a & Hc & Ha). apply list_elem_of_fmap in Hc as (b & -> & Hb).
    apply list_elem_of_filter in Hb as [Hk Hb]. eauto 6.
  - intros (a & b & Ha & Hb & Hk & ->). exists a. split; [|done].
    apply list_elem_of_fmap. exists b. split; [done|]. by apply list_elem_of_filter.
Qed.

(** X2. Whatever the tables hold (keys repeated or not), a row is in
    [doc_with_topic] exactly when its assignment is a row of [doc_topics],
    its document a row of [docs] with the same [DOC_ID], and its label
    either the label of a [topics] row with the assignment's topic id, or
    null when no [topics] row has that id.  So no assignment without a
    document appears, none with a document is lost, and an unknown topic
    id (also -1 when [topics] has no such row) keeps its row. *)
Theorem doc_with_topic_rows `{Engine} (docs : list Doc) (topics : list Topic)
    (doc_topics : list DocTopic) (r : DocWithTopic) :
  r ∈ doc_with_topic docs topics doc_topics ↔
  assignment r ∈ doc_topics ∧ document r ∈ docs ∧
  DOC_ID (document r) = dt_DOC_ID (assignment r) ∧
  ((∃ tp, tp ∈ topics ∧ topic tp = dt_topic (assignment r) ∧
          dwt_label r = Some (label tp)) ∨
   ((∀ tp, tp ∈ topics -> topic tp ≠ dt_topic (assignment r)) ∧ dwt_label r = None)).
Proof.
  unfold doc_with_topic. rewrite elem_of_join_left.
  setoid_rewrite elem_of_join_inner. split.
  - intros (a & (dt & d & Hdt & Hd & Hk & ->) & Hlab). cbn [fst snd] in Hlab.
    destruct Hlab as [(b & Hb & Hbk & ->)|[Hno ->]];
      cbn [assignment document dwt_label]; (split; [done|]); (split; [done|]);
      (split; [done|]).
    + left. apply list_elem_of_fmap in Hb as (tp & -> & Htp). eauto.
    + right. split; [|done]. intros tp Htp Hk'.
      apply (Hno (topic tp, label tp)); [|done]. apply list_elem_of_fmap. eauto.
  - destruct r as [dt d lab]. cbn [assignment document dwt_label].
    intros (Hdt & Hd & Hk & Hlab). exists (dt, d). split; [by eauto 6|].
    cbn [fst snd]. destruct Hlab as [(tp & Htp & Hkt & ->)|[Hno ->]].
    + left. exists (topic tp, label tp). split; [|done].
      apply list_elem_of_fmap. eauto.
    + right. split; [|done]. intros b Hb Hkb.
      apply list_elem_of_fmap in Hb as (tp & -> & Htp). by apply (Hno tp).
Qed.

(** *** Distribuição por ano *)

Lemma sum_int_Permutation (xs ys : list Z) : xs ≡ₚ ys -> sum_int xs = sum_int ys.
Proof.
  unfold sum_int. induction 1 as [|x xs ys _ IH|x y xs|xs ys zs _ IH1 _ IH2]; cbn; lia.
Qed.

Lemma height_filter_split {A} (P : A -> Prop) `{∀ x, Decision (P x)} (l : list A) :
  height l = height (filter P l) + height (filter (λ x, ¬ P x) l).
Proof.
  unfold height. rewrite <- Nat2Z.inj_add, <- length_app.
  by rewrite (filter_app_complement P l).
Qed.

Lemma group_sizes_sum {A K} `{EqDecision K} (key : A -> K) (ks : list K) (l : list A) :
  NoDup ks -> (∀ a, a ∈ l -> key a ∈ ks) ->
  sum_int ((λ k, height (filter (λ a, key a = k) l)) <$> ks) = height l.
Proof.
  revert l. induction ks as [|k ks IH]; intros l Hnd Hin.
  - destruct l as [|a l]; [done|]. specialize (Hin a ltac:(left)).
    by apply elem_of_nil in Hin.
  - apply NoDup_cons in Hnd as [Hk Hnd]. cbn [fmap list_fmap sum_int foldr].
    rewrite (height_filter_split (λ a, key a = k) l). f_equal.
    rewrite <- (IH (filter (λ a, ¬ key a = k) l) Hnd).
    + unfold sum_int. f_equal. apply list_fmap_ext. intros i k' Hk'.
      apply list_elem_of_lookup_2 in Hk'. f_equal.
      rewrite list_filter_filter. apply list_filter_iff. intros a.
      split; [|tauto]. intros ->. split; [done|]. by intros ->.
    + intros a [Ha Hal]%list_elem_of_filter.
      pose proof (Hin a Hal) as Hk'. by apply elem_of_cons in Hk' as [Hk'|Hk'].
Qed.

Lemma NoDup_Permutation_fmap {A B} (f : A -> B) (l l' : list A) :
  l ≡ₚ l' -> NoDup (f <$> l') -> NoDup (f <$> l).
Proof. intros Hp. by rewrite Hp. Qed.

(** X3. The yearly distribution of the overview has one row per year that
    occurs in [docs], in ascending order of year; the count of a row is the
    number of documents of that year, and the counts add up to
    [docs.height]. *)
Theorem by_year_counts (docs : list Doc) :
  NoDup (fst <$> by_year docs) ∧
  StronglySorted (λ a b : Z * Z, a.1 ≤ b.1) (by_year docs) ∧
  (∀ y n, (y, n) ∈ by_year docs ↔
          y ∈ ano <$> docs ∧ n = height (filter (λ d, ano d = y) docs)) ∧
  sum_int (snd <$> by_year docs) = height docs.
Proof.
  assert (Hperm : by_year docs ≡ₚ
            (λ k, (k, height (filter (λ d, ano d = k) docs))) <$>
            remove_dups (ano <$> docs)).
  { unfold by_year. rewrite sort_Permutation. unfold group_by.
    by rewrite <- list_fmap_compose. }
  split; [|split; [|split]].
  - rewrite Hperm, <- list_fmap_compose.
    assert (Hid : ∀ ks : list Z,
              (fst ∘ λ k, (k, height (filter (λ d, ano d = k) docs))) <$> ks = ks).
    { induction ks as [|k ks IH]; [done|]. cbn. by rewrite IH. }
    rewrite Hid. apply NoDup_remove_dups.
  - unfold by_year. apply sort_StronglySorted.
    + intros a b. apply bool_decide_spec.
    + intros a b c. lia.
    + intros a b. lia.
  - intros y n. rewrite Hperm, list_elem_of_fmap. split.
    + intros (k & Heq & Hk). apply (proj1 (elem_of_remove_dups _ _)) in Hk.
      by simplify_eq.
    + intros [Hy ->]. exists y. split; [done|]. by apply elem_of_remove_dups.
  - rewrite (sum_int_Permutation _ _ (fmap_Permutation snd _ _ Hperm)).
    rewrite <- list_fmap_compose.
    apply (group_sizes_sum ano (remove_dups (ano <$> docs)) docs).
    + apply NoDup_remove_dups.
    + intros d Hd. apply elem_of_remove_dups. by apply list_elem_of_fmap_2.
Qed.

(** *** Filtrar TCCs por tema, for every option *)

Lemma ano_asc_prob_desc_spec y1 p1 y2 p2 :
  ano_asc_prob_desc y1 p1 y2 p2 ↔ year_asc_prob_desc y1 p1 y2 p2.
Proof. unfold ano_asc_prob_desc, year_asc_prob_desc. apply bool_decide_spec. Qed.

Lemma sort_length {A} (leb : A -> A -> bool) (l : list A) :
  length (sort leb l) = length l.
Proof. by rewrite sort_Permutation. Qed.





(** X5. The table of the topic-filter page holds exactly the rows of
    DocumentWithTopic assigned to the selected topic (the outlier topic -1
    like any other), ordered by ascending year and, within a year, by
    descending probability; the trend rows are those of the topic in
    ascending order of year. *)
Theorem filter_page_tables (dwt : list DocWithTopic) (trends : list Trend) (t : Z) :
  subset dwt t ≡ₚ thesis_row <$> filter (λ r, dt_topic (assignment r) = t) dwt ∧
  StronglySorted
    (λ a b, year_asc_prob_desc (th_ano a) (th_prob a) (th_ano b) (th_prob b))
    (subset dwt t) ∧
  height (subset dwt t) = height (filter (λ r, dt_topic (assignment r) = t) dwt) ∧
  t_trend trends t ≡ₚ filter (λ r, tr_topic r = t) trends ∧
  StronglySorted (λ a b, tr_ano a ≤ tr_ano b) (t_trend trends t).
Proof.
  split; [apply sort_Permutation|]. split; [|split; [|split]].
  - unfold subset. apply sort_StronglySorted.
    + intros a b. apply ano_asc_prob_desc_spec.
    + intros a b c. unfold year_asc_prob_desc. lia.
    + intros a b. unfold year_asc_prob_desc. lia.
  - unfold height, subset. by rewrite sort_length, length_fmap.
  - apply sort_Permutation.
  - unfold t_trend. apply sort_StronglySorted.
    + intros a b. apply bool_decide_spec.
    + intros a b c. lia.
    + intros a b. lia.
Qed.

(** *** Evolução de temas *)

Lemma multiselect_fmap {A} (f : A -> string) (opts : list A) (ticked : list nat) :
  multiselect (f <$> opts) ticked = f <$> omap (λ i, opts !! i) ticked.
Proof.
  unfold multiselect. induction ticked as [|i ticked IH]; [done|].
  cbn [omap list_omap]. rewrite list_lookup_fmap.
  destruct (opts !! i); cbn; by rewrite IH.
Qed.

Lemma mapM_decode_pick (ps : list (Z * string)) :
  mapM decode_pick ((λ o : Z * string, "[" +:+ str_of_int o.1 +:+ "] " +:+ o.2) <$> ps)
  = Ok (fst <$> ps).
Proof.
  induction ps as [|[t lab] ps IH]; [done|].
  cbn [fmap list_fmap mapM fst snd].
  change ("] " +:+ lab) with ("]" +:+ String " " lab).
  rewrite (proj2 (decode_bracketed t (String " " lab))).
  cbn [mbind result_bind bind]. rewrite IH. done.
Qed.

Lemma elem_of_evolution `{Engine} (trends : list Trend) (topics : list Topic) (ids : list Z)
    (x : Trend * option string) :
  x ∈ evolution trends topics ids ↔
  x.1 ∈ trends ∧ tr_topic x.1 ∈ ids ∧
  ((∃ tp, tp ∈ topics ∧ topic tp = tr_topic x.1 ∧ x.2 = Some (label tp)) ∨
   ((∀ tp, tp ∈ topics -> topic tp ≠ tr_topic x.1) ∧ x.2 = None)).
Proof.
  unfold evolution. rewrite elem_of_sort, elem_of_join_left.
  setoid_rewrite list_elem_of_filter. setoid_rewrite elem_of_sort.
  unfold topic_labels. setoid_rewrite list_elem_of_fmap. split.
  - intros (a & [Hid Ha] & [(b & (tp & -> & Htp) & Hk & ->)|[Hno ->]]);
      cbn [fst snd] in *; (split; [done|]); (split; [done|]).
    + left. eauto.
    + right. split; [|done]. intros tp Htp Hk.
      apply (Hno (topic tp, label tp)); eauto.
  - destruct x as [a lab]. cbn [fst snd].
    intros (Ha & Hid & [(tp & Htp & Hk & ->)|[Hno ->]]); exists a; (split; [done|]).
    + left. exists (topic tp, label tp). eauto.
    + right. split; [|done]. intros b (tp & -> & Htp). by apply Hno.
Qed.

(** X6. The evolution page never fails on a label: every ticked option
    decodes to the topic id it was built from.  With nothing ticked the page
    shows only the prompt; otherwise it shows one chart, whose rows are
    exactly the trend rows of the ticked topics, each with the label of a
    topic row of its id (null when there is none), ordered by topic and then
    by year. *)
Theorem evolution_page `{Engine} (trends : list Trend) (topics : list Topic)
    (ticked : list nat) :
  mapM decode_pick (multiselect (labels topics) ticked)
  = Ok (fst <$> ticked_pairs topics ticked) ∧
  page_evolution trends topics ticked
  = ([Title "Evolução de temas no período";
      if is_empty (ticked_pairs topics ticked)
      then Info "Selecione ao menos um tema para visualizar a evolução."
      else Chart (EvolutionTable
                    (evolution trends topics (fst <$> ticked_pairs topics ticked)))],
     Ok ()) ∧
  (∀ ids x, x ∈ evolution trends topics ids ↔
     x.1 ∈ trends ∧ tr_topic x.1 ∈ ids ∧
     ((∃ tp, tp ∈ topics ∧ topic tp = tr_topic x.1 ∧ x.2 = Some (label tp)) ∨
      ((∀ tp, tp ∈ topics -> topic tp ≠ tr_topic x.1) ∧ x.2 = None))) ∧
  (∀ ids, StronglySorted
     (λ a b : Trend * option string,
        tr_topic a.1 < tr_topic b.1 ∨ tr_topic a.1 = tr_topic b.1 ∧ tr_ano a.1 ≤ tr_ano b.1)
     (evolution trends topics ids)).
Proof.
  assert (Hpicks : multiselect (labels topics) ticked
                   = (λ o : Z * string, "[" +:+ str_of_int o.1 +:+ "] " +:+ o.2) <$>
                     ticked_pairs topics ticked).
  { unfold labels. by rewrite multiselect_fmap. }
  assert (Hdec : mapM decode_pick (multiselect (labels topics) ticked)
                 = Ok (fst <$> ticked_pairs topics ticked)).
  { rewrite Hpicks. apply mapM_decode_pick. }
  split; [done|]. split; [|split].
  - unfold page_evolution. cbv zeta. rewrite bind_emit, Hdec, Hpicks.
    destruct (ticked_pairs topics ticked) as [|p ps]; [done|].
    cbn [fmap list_fmap is_empty negb]. by rewrite bind_lift_ok.
  - intros ids x. apply elem_of_evolution.
  - intros ids. unfold evolution. apply sort_StronglySorted.
    + intros a b. apply bool_decide_spec.
    + intros a b c. lia.
    + intros a b. lia.
Qed.

(** *** The manifest in the sidebar *)

Lemma dict_get_non_dict (v : pyval) (key : string) (default : pyval) :
  is_dict v = false -> dict_get v key default = Raise AttributeError.
Proof. by destruct v. Qed.

Lemma dict_get_dict (d : list (string * pyval)) (key : string) (default : pyval) :
  ∃ v, dict_get (PyDict d) key default = Ok v.
Proof. by eexists. Qed.

Lemma sidebar_non_dict `{FloatLiteral} (manifest : pyval) :
  truthy manifest = true -> is_dict manifest = false ->
  sidebar manifest = ([], Raise AttributeError).
Proof.
  intros Ht Hd. unfold sidebar. rewrite Ht.
  rewrite (dict_get_non_dict manifest "generated_at" _ Hd).
  apply bind_lift_raise.
Qed.

(** X7. A manifest file that parses to a value that is true but no object
    (a non-empty array, a non-empty string, a non-zero number, [true]) is
    returned by [load_manifest] as it is; the sidebar then calls [get] on it
    and the run ends with [AttributeError] before anything is shown and
    before any table is loaded, whatever the page. *)
Theorem manifest_not_an_object `{FloatLiteral} `{JsonParser} `{StrContains} `{Engine}
    (ex : exports) (user : inputs) (text : string) (v : pyval) :
  file_exists (manifest_json ex) = true ->
  read_text (manifest_json ex) = Ok text ->
  json_loads text = Some v ->
  truthy v = true -> is_dict v = false ->
  load_manifest (manifest_json ex) = v ∧
  sidebar v = ([], Raise AttributeError) ∧
  main ex user = ([], Raise AttributeError).
Proof.
  intros He Hr Hj Ht Hd.
  assert (Hl : load_manifest (manifest_json ex) = v).
  { unfold load_manifest. rewrite He, Hr. cbn. by rewrite Hj. }
  pose proof (sidebar_non_dict v Ht Hd) as Hs.
  split; [done|]. split; [done|].
  unfold main. by rewrite Hl, Hs.
Qed.

(** A manifest file holding the array [[1]], with a parser that reads
    exactly that text. *)
Lemma manifest_not_an_object_witness :
  main (H := no_float_literal)
       (H0 := λ s, if String.eqb s "[1]" then Some (PyList [PyInt 1]) else None)
       (H1 := ["literal"; "strict"]) (H2 := listed_order)
       (exports_of {| file_exists := true; read_text := Ok "[1]" |} [] [] [] [] [] [])
       {| in_page := VisaoGeral; in_query := ""; in_pick := 0; in_ticked := [] |}
  = ([], Raise AttributeError).
Proof.
  by apply (manifest_not_an_object
              (H0 := λ s, if String.eqb s "[1]" then Some (PyList [PyInt 1]) else None)
              _ _ "[1]" (PyList [PyInt 1])).
Defined.

Lemma dict_get_is_dict (v : pyval) (key : string) (default : pyval) :
  is_dict v = true -> ∃ w, dict_get v key default = Ok w.
Proof. destruct v; try done. intros _. apply dict_get_dict. Qed.

Lemma bind_lift_get `{FloatLiteral} {B} (v : pyval) (key : string) (default : pyval)
    (k : pyval -> script B) :
  is_dict v = true ->
  ∃ w, (lift (dict_get v key default) ≫= k) = k w.
Proof.
  intros Hv. destruct (dict_get_is_dict v key default Hv) as [w Hw].
  exists w. by rewrite Hw, bind_lift_ok.
Qed.

Ltac run_script :=
  repeat first [rewrite bind_lift_ok | rewrite bind_emit | progress cbn [dict_get]].

(** X8. For a manifest that is a non-empty object, the sidebar reads every
    field with a default and runs to its end when the value under
    ["selection"] is an object or false (absent, null, empty) and those
    under ["corpus"] and ["corpus"]["years"] are objects or absent: it shows
    two lines, or four when ["selection"] is a non-empty object.  A
    ["corpus"] that is present but no object (null included), a ["years"]
    likewise, or a ["selection"] that is true but no object ends the run
    with [AttributeError]: the defaults cover missing keys only. *)
Theorem sidebar_object `{FloatLiteral} (d : list (string * pyval)) (sel corp : pyval) :
  d ≠ [] ->
  dict_get (PyDict d) "selection" empty_dict = Ok sel ->
  dict_get (PyDict d) "corpus" empty_dict = Ok corp ->
  (truthy sel = false ∨ is_dict sel = true ->
   is_dict corp = true ->
   (∀ years, dict_get corp "years" empty_dict = Ok years -> is_dict years = true) ->
   (sidebar (PyDict d)).2 = Ok () ∧
   length (sidebar (PyDict d)).1 = if truthy sel then 4%nat else 2%nat) ∧
  (truthy sel = true -> is_dict sel = false ->
   (sidebar (PyDict d)).2 = Raise AttributeError) ∧
  (truthy sel = false ∨ is_dict sel = true -> is_dict corp = false ->
   (sidebar (PyDict d)).2 = Raise AttributeError) ∧
  (truthy sel = false ∨ is_dict sel = true -> is_dict corp = true ->
   (∀ years, dict_get corp "years" empty_dict = Ok years -> is_dict years = false) ->
   (sidebar (PyDict d)).2 = Raise AttributeError).
Proof.
  intros Hd Hsel Hcorp.
  assert (Ht : truthy (PyDict d) = true) by by destruct d.
  assert (Hgen : ∃ g, dict_get (PyDict d) "generated_at" (PyStr dash) = Ok g)
    by apply dict_get_dict.
  destruct Hgen as [g Hg].
  (* the block under [if sel:] when [sel] is an object or false *)
  assert (Hblock : truthy sel = false ∨ is_dict sel = true ->
            ∃ ws, (if truthy sel
                   then
                     method ← lift (dict_get sel "method" (PyStr dash));
                     run ← lift (dict_get sel "run" (PyStr dash));
                     trial ← lift (dict_get sel "trial" (PyStr dash));
                     emit (MarkdownF [Text "**Modelo:** "; Value method;
                                      Text "  \n**Run/Trial:** "; Value run;
                                      Text " / "; Value trial]);;
                     K ← lift (dict_get sel "K" (PyStr dash));
                     pct ← lift (dict_get sel "reported_outliers_pct" PyNone);
                     emit (MarkdownF [Text "**K:** "; Value K;
                                      Text "  \n**Outliers (reported):** ";
                                      Text (human_pct pct)])
                   else mret ()) = (ws, Ok ()) ∧
                  length ws = if truthy sel then 2%nat else 0%nat).
  { intros Hs. destruct (truthy sel) eqn:Hts.
    - destruct Hs as [|Hs]; [done|]. destruct sel; try done.
      eexists. split; [reflexivity|done].
    - by exists []. }
  split; [|split; [|split]].
  - intros Hs Hc Hy. destruct (Hblock Hs) as (ws & Hws & Hlen).
    destruct (dict_get_is_dict corp "years" empty_dict Hc) as [years Hyears].
    specialize (Hy years Hyears).
    destruct corp as [| | | | | |dc]; try done. destruct years as [| | | | | |dy]; try done.
    cbn [dict_get] in Hyears. injection Hyears as Hyears.
    unfold sidebar. rewrite Ht, Hg, bind_lift_ok, bind_emit, Hsel, bind_lift_ok.
    rewrite Hws. cbn [mbind script_bind fst snd]. rewrite Hcorp.
    run_script. rewrite Hyears. run_script.
    cbn [fst snd length]. rewrite length_app, Hlen.
    split; [done|]. by destruct (truthy sel).
  - intros Hts Hs. unfold sidebar.
    rewrite Ht, Hg, bind_lift_ok, bind_emit, Hsel, bind_lift_ok, Hts.
    by rewrite (dict_get_non_dict sel "method" _ Hs).
  - intros Hs Hc. destruct (Hblock Hs) as (ws & Hws & Hlen).
    unfold sidebar. rewrite Ht, Hg, bind_lift_ok, bind_emit, Hsel, bind_lift_ok.
    rewrite Hws. cbn [mbind script_bind fst snd]. rewrite Hcorp, bind_lift_ok.
    by rewrite (dict_get_non_dict corp "n_docs" _ Hc).
  - intros Hs Hc Hy. destruct (Hblock Hs) as (ws & Hws & Hlen).
    destruct (dict_get_is_dict corp "years" empty_dict Hc) as [years Hyears].
    specialize (Hy years Hyears).
    destruct corp as [| | | | | |dc]; try done.
    cbn [dict_get] in Hyears. injection Hyears as Hyears.
    unfold sidebar. rewrite Ht, Hg, bind_lift_ok, bind_emit, Hsel, bind_lift_ok.
    rewrite Hws. cbn [mbind script_bind fst snd]. rewrite Hcorp.
    run_script. rewrite Hyears.
    by rewrite (dict_get_non_dict years "min" _ Hy).
Qed.

(** A manifest with only [generated_at], and one whose [corpus] is null. *)
Lemma sidebar_object_witness :
  (sidebar (H := no_float_literal) (PyDict [("generated_at", PyStr "2024-05-01")])).2
  = Ok () ∧
  (sidebar (H := no_float_literal) (PyDict [("corpus", PyNone)])).2
  = Raise AttributeError.
Proof.
  split.
  - destruct (sidebar_object (H := no_float_literal)
                [("generated_at", PyStr "2024-05-01")] empty_dict empty_dict)
      as (Hok & _); [done..|].
    apply Hok; [by left|done|].
    intros years Hy. by injection Hy as <-.
  - destruct (sidebar_object (H := no_float_literal)
                [("corpus", PyNone)] empty_dict PyNone)
      as (_ & _ & Hbad & _); [done..|].
    apply Hbad; [by left|done].
Defined.

(** *** Loading the tables *)

Lemma bind_shown {B} (ws : list widget) (k : unit -> script B) :
  ((ws, Ok ()) ≫= k) = (ws ++ (k ()).1, (k ()).2).
Proof. done. Qed.

(** X9. Every page needs all six tables: whichever page is selected, when a
    table file is missing (for the topics, when both [topics_current] and
    [topics] are) the run ends with the loader's error right after the
    sidebar, and nothing of the page, nor the footer, is shown. *)
Theorem missing_table_is_fatal `{FloatLiteral} `{JsonParser} `{StrContains} `{Engine}
    (ex : exports) (user : inputs) (ws : list widget) :
  sidebar (load_manifest (manifest_json ex)) = (ws, Ok ()) ->
  table_missing ex ->
  main ex user = (ws, Raise OSError).
Proof.
  intros Hs Hm. unfold main, topics_table. rewrite Hs, bind_shown. cbv beta.
  destruct ex as [m d tc tp dt tr ap ats]. unfold table_missing in Hm.
  cbn [docs_parquet topics_current_parquet topics_parquet doc_topics_parquet
       topic_trends_parquet advisor_profiles_parquet advisor_topics_parquet] in *.
  assert (Hend : ∀ A (k : A -> script (option ())),
            (ws ++ (lift (Raise OSError) ≫= k).1, (lift (Raise OSError) ≫= k).2)
            = (ws, Raise OSError)).
  { intros A k. rewrite bind_lift_raise. cbn [fst snd]. by rewrite app_nil_r. }
  destruct d as [d|]; [|apply Hend]. cbn [load_parquet of_option]. rewrite bind_lift_ok.
  destruct tc as [tc|], tp as [tp|]; cbn [load_parquet of_option];
    try rewrite bind_lift_ok; try apply Hend;
    (destruct dt as [dt|]; [|apply Hend]); cbn [load_parquet of_option];
    rewrite bind_lift_ok;
    (destruct tr as [tr|]; [|apply Hend]); cbn [load_parquet of_option];
    rewrite bind_lift_ok;
    (destruct ap as [ap|]; [|apply Hend]); cbn [load_parquet of_option];
    rewrite bind_lift_ok;
    (destruct ats as [ats|]; [|apply Hend]);
    exfalso; destruct Hm as [?|[[? ?]|[?|[?|[?|?]]]]]; done.
Qed.

(** An export directory without [docs.parquet] and without manifest. *)
Lemma missing_table_is_fatal_witness :
  main (H := no_float_literal) (H0 := λ _, None) (H1 := ["literal"; "strict"]) (H2 := listed_order)
       {| manifest_json := {| file_exists := false; read_text := Raise OSError |};
          docs_parquet := None; topics_current_parquet := None;
          topics_parquet := Some ex_topics; doc_topics_parquet := Some ex_doc_topics;
          topic_trends_parquet := Some ex_trends;
          advisor_profiles_parquet := Some []; advisor_topics_parquet := Some [] |}
       {| in_page := VisaoGeral; in_query := ""; in_pick := 0; in_ticked := [] |}
  = ([Caption "Manifesto não encontrado (_manifest.json)."], Raise OSError).
Proof.
  apply (missing_table_is_fatal (H := no_float_literal) (H0 := λ _, None)).
  - reflexivity.
  - by left.
Defined.

(** X10. The topics come from [topics_current.parquet] when that file
    exists, and [topics.parquet] is then not looked at; when it does not
    exist the run is the one [topics.parquet] would give as the current
    file. *)
Theorem topics_fallback `{FloatLiteral} `{JsonParser} `{StrContains} `{Engine}
    (ex : exports) (user : inputs) :
  (∀ t other, topics_current_parquet ex = Some t ->
     main (with_topics_parquet ex other) user = main ex user ∧
     topics_table ex = Ok t) ∧
  (topics_current_parquet ex = None ->
     main (with_topics_current ex (topics_parquet ex)) user = main ex user ∧
     topics_table ex = load_parquet (topics_parquet ex)).
Proof.
  split.
  - intros t other Hc. unfold main, topics_table. cbn. by rewrite Hc.
  - intros Hc. unfold main, topics_table. cbn. rewrite Hc.
    by destruct (topics_parquet ex).
Qed.

(** Only [topics.parquet] present; and both present. *)
Lemma topics_fallback_witness :
  topics_table (exports_of {| file_exists := false; read_text := Raise OSError |}
                  ex_docs ex_topics ex_doc_topics ex_trends [] [])
  = Ok ex_topics ∧
  topics_table (with_topics_current
                  (exports_of {| file_exists := false; read_text := Raise OSError |}
                     ex_docs ex_topics ex_doc_topics ex_trends [] [])
                  (Some [topic_row 3 "Networks"]))
  = Ok [topic_row 3 "Networks"].
Proof.
  split.
  - destruct (topics_fallback (H := no_float_literal) (H0 := λ _, None)
                (H1 := ["literal"; "strict"]) (H2 := listed_order)
                (exports_of {| file_exists := false; read_text := Raise OSError |}
                   ex_docs ex_topics ex_doc_topics ex_trends [] [])
                {| in_page := VisaoGeral; in_query := ""; in_pick := 0; in_ticked := [] |})
      as [_ Hn].
    by rewrite (proj2 (Hn eq_refl)).
  - destruct (topics_fallback (H := no_float_literal) (H0 := λ _, None)
                (H1 := ["literal"; "strict"]) (H2 := listed_order)
                (with_topics_current
                   (exports_of {| file_exists := false; read_text := Raise OSError |}
                      ex_docs ex_topics ex_doc_topics ex_trends [] [])
                   (Some [topic_row 3 "Networks"]))
                {| in_page := VisaoGeral; in_query := ""; in_pick := 0; in_ticked := [] |})
      as [Hc _].
    by apply (Hc _ None).
Defined.

(** *** Perfil do orientador: options and tables *)

Lemma sorted_fmap_strong {A B} (f : A -> B) (R : relation B) (l : list A) :
  StronglySorted (λ a b, R (f a) (f b)) l -> StronglySorted R (f <$> l).
Proof.
  induction 1 as [|a l Hs IH Hall]; cbn; constructor; [done|].
  by apply Forall_fmap.
Qed.

(** X11. On the advisor page the options are the advisor names in ascending
    order, every profile's name among them; with no profile the page shows
    only the warning and ends normally.  The theses of an advisor are
    ordered by ascending year and, within a year, descending probability;
    the topic distribution by descending document count. *)
Theorem profile_page_tables `{Engine} (profiles : list AdvisorProfile) :
  orient_opts profiles ≡ₚ ap_orientador_nome <$> profiles ∧
  StronglySorted String.le (orient_opts profiles) ∧
  (∀ ats topics dwt pick,
     page_profile [] ats topics dwt pick
     = ([Title "Perfil do orientador";
         Warning "Sem perfis de orientadores disponíveis."], Ok ())) ∧
  (∀ dwt oid,
     StronglySorted
       (λ a b, year_asc_prob_desc (ath_ano a) (ath_prob a) (ath_ano b) (ath_prob b))
       (tccs dwt oid)) ∧
  (∀ ats topics oid,
     StronglySorted
       (λ a b : AdvisorTopic * option string, at_n_docs b.1 ≤ at_n_docs a.1)
       (dist ats topics oid)).
Proof.
  split; [|split; [|split; [|split]]].
  - unfold orient_opts. by rewrite sort_Permutation.
  - unfold orient_opts. apply sorted_fmap_strong, sort_StronglySorted.
    + intros a b. done.
    + intros a b c. apply (transitivity (R := String.le)).
    + intros a b. apply (total String.le).
  - done.
  - intros dwt oid. unfold tccs. apply sort_StronglySorted.
    + intros a b. apply ano_asc_prob_desc_spec.
    + intros a b c. unfold year_asc_prob_desc. lia.
    + intros a b. unfold year_asc_prob_desc. lia.
  - intros ats topics oid. unfold dist. apply sort_StronglySorted.
    + intros a b. apply bool_decide_spec.
    + intros a b c. lia.
    + intros a b. lia.
Qed.

(** *** Top temas: one row per topic *)

Lemma left_rows_unique_fmap {A B C K} `{EqDecision K}
    (ka : A -> K) (kb : B -> K) (mk : A -> option B -> C)
    (l : list A) (other : list B) :
  NoDup (kb <$> other) ->
  left_rows ka kb mk l other
  = (λ a, mk a (snd <$> list_find (λ b, kb b = ka a) other)) <$> l.
Proof.
  intros Hn. unfold left_rows. induction l as [|a l IH]; [done|].
  change (a :: l) with ([a] ++ l). rewrite bind_app, fmap_app, IH.
  f_equal. cbn [mbind list_bind]. rewrite app_nil_r.
  rewrite (filter_unique_key kb (ka a) other Hn).
  rewrite (list_fmap_singleton _ a).
  destruct (list_find _ other) as [[i b]|]; reflexivity.
Qed.

Lemma sublist_NoDup_fmap {A B} (f : A -> B) (l k : list A) :
  l `sublist_of` k -> NoDup (f <$> k) -> NoDup (f <$> l).
Proof.
  intros Hs Hn. exact (sublist_NoDup _ _ Hn (fmap_sublist f _ _ Hs)).
Qed.

(** X12. When the topic ids are unique in [topics], the top-topics table
    has at most one row per topic, and as many rows as there are distinct
    topics in the trends table, up to 10. *)
Theorem top_share_one_row_per_topic `{Engine} (trends : list Trend) (topics : list Topic) :
  NoDup (topic <$> topics) ->
  NoDup (ts_topic <$> top_share trends topics) ∧
  length (top_share trends topics)
  = (length (remove_dups (tr_topic <$> trends)) `min` 10)%nat.
Proof.
  intros Hn.
  assert (Hk : NoDup (fst <$> topic_labels topics)).
  { unfold topic_labels. by rewrite <- list_fmap_compose. }
  assert (Hj : ts_topic <$> top_share_joined trends topics
               ≡ₚ remove_dups (tr_topic <$> trends)).
  { unfold top_share_joined.
    rewrite join_left_Permutation, (left_rows_unique_fmap _ _ _ _ _ Hk).
    unfold top_share_groups, group_by. rewrite <- !list_fmap_compose.
    generalize (remove_dups (tr_topic <$> trends)). intros ks.
    induction ks as [|k ks IH]; [done|]. rewrite fmap_cons, IH. reflexivity. }
  split.
  - unfold top_share, head.
    apply (sublist_NoDup_fmap _ _ (sort by_share_medio_desc (top_share_joined trends topics)));
      [apply sublist_take|].
    rewrite (fmap_Permutation ts_topic _ _ (sort_Permutation _ _)), Hj.
    apply NoDup_remove_dups.
  - unfold top_share, head. rewrite length_take, sort_length.
    rewrite <- (Permutation_length Hj), length_fmap. lia.
Qed.

(** The example trends (one topic) and a topics table with unique ids. *)
Lemma top_share_one_row_per_topic_witness :
  length (top_share (H := listed_order) ex_trends ex_topics) = 1%nat.
Proof.
  destruct (top_share_one_row_per_topic (H := listed_order) ex_trends ex_topics)
    as [_ Hl].
  - by apply (bool_decide_unpack _); vm_compute.
  - rewrite Hl. reflexivity.
Defined.

(** *** Visão geral: the period *)

Lemma foldr_min_spec (y : Z) (ys : list Z) :
  foldr Z.min y ys ∈ y :: ys ∧ Forall (λ x, foldr Z.min y ys ≤ x) (y :: ys).
Proof.
  induction ys as [|a ys [Hin Hall]]; cbn [foldr].
  - split; [apply list_elem_of_here|]. constructor; [lia|constructor].
  - apply Forall_cons in Hall as [Hy Hall]. split.
    + destruct (Z.min_spec a (foldr Z.min y ys)) as [[_ ->]|[_ ->]].
      * apply list_elem_of_further, list_elem_of_here.
      * apply elem_of_cons in Hin as [->|Hin]; [apply list_elem_of_here|].
        by do 2 apply list_elem_of_further.
    + repeat apply Forall_cons_2; [lia|lia|].
      eapply Forall_impl; [exact Hall|]. cbn. intros x Hx. lia.
Qed.

Lemma foldr_max_spec (y : Z) (ys : list Z) :
  foldr Z.max y ys ∈ y :: ys ∧ Forall (λ x, x ≤ foldr Z.max y ys) (y :: ys).
Proof.
  induction ys as [|a ys [Hin Hall]]; cbn [foldr].
  - split; [apply list_elem_of_here|]. constructor; [lia|constructor].
  - apply Forall_cons in Hall as [Hy Hall]. split.
    + destruct (Z.max_spec a (foldr Z.max y ys)) as [[_ ->]|[_ ->]].
      * apply elem_of_cons in Hin as [->|Hin]; [apply list_elem_of_here|].
        by do 2 apply list_elem_of_further.
      * apply list_elem_of_further, list_elem_of_here.
    + repeat apply Forall_cons_2; [lia|lia|].
      eapply Forall_impl; [exact Hall|]. cbn. intros x Hx. lia.
Qed.

Lemma elem_of_drop_nulls {A} (col : list (option A)) (x : A) :
  x ∈ drop_nulls col ↔ Some x ∈ col.
Proof.
  unfold drop_nulls. rewrite list_elem_of_omap. split.
  - intros (o & Ho & Heq). unfold id in Heq. by subst o.
  - intros Hx. by exists (Some x).
Qed.

(** X13. The "Período" metric is computed from the years that are not
    null.  When the column has a year, the metric reads [lo–hi], where [lo]
    and [hi] are years of the column and every year of the column lies
    between them; when it has none (no row, or null in every row) the metric
    is the dash.  The overview page shows this for the year column of
    [docs]. *)
Theorem periodo_min_max `{FloatLiteral} `{Engine} (col : list (option Z)) :
  ((∀ y, Some y ∉ col) -> periodo col = dash) ∧
  (∀ y0, Some y0 ∈ col ->
     ∃ lo hi, periodo col = str_of_int lo +:+ dash +:+ str_of_int hi ∧
       Some lo ∈ col ∧ Some hi ∈ col ∧
       ∀ y, Some y ∈ col -> lo ≤ y ≤ hi) ∧
  (∀ docs topics doc_topics trends,
     metric_of "Período" (page_overview docs topics doc_topics trends).1
     = Some (periodo (col_ano docs))).
Proof.
  split; [|split].
  - intros Hno. unfold periodo.
    destruct (drop_nulls col) as [|y ys] eqn:Hy; [done|].
    destruct (Hno y). apply elem_of_drop_nulls. rewrite Hy. left.
  - intros y0 Hy0. unfold periodo.
    apply elem_of_drop_nulls in Hy0.
    destruct (drop_nulls col) as [|y ys] eqn:Hy; [by apply elem_of_nil in Hy0|].
    destruct (foldr_min_spec y ys) as [Hlo Hlo'].
    destruct (foldr_max_spec y ys) as [Hhi Hhi'].
    exists (foldr Z.min y ys), (foldr Z.max y ys).
    split; [done|].
    split; [apply elem_of_drop_nulls; by rewrite Hy|].
    split; [apply elem_of_drop_nulls; by rewrite Hy|].
    intros z Hz. apply elem_of_drop_nulls in Hz. rewrite Hy in Hz.
    rewrite Forall_forall in Hlo', Hhi'.
    split; [by apply Hlo'|by apply Hhi'].
  - intros docs topics doc_topics trends. unfold page_overview.
    by destruct (int_truediv _ _).
Qed.

(** A column with a null cell between two years, and a column of nulls. *)
Lemma periodo_min_max_witness :
  periodo [Some 2021; None; Some 2019] = "2019–2021" ∧
  periodo [None; None] = dash.
Proof.
  destruct (periodo_min_max (H := no_float_literal) (H0 := listed_order)
              [Some 2021; None; Some 2019]) as (_ & Hyear & _).
  destruct (periodo_min_max (H := no_float_literal) (H0 := listed_order)
              [None; None]) as (Hnone & _ & _).
  split.
  - destruct (Hyear 2021) as (lo & hi & Hp & _); [left|]. reflexivity.
  - apply Hnone. intros y Hy.
    repeat (apply elem_of_cons in Hy as [Hy|Hy]; [done|]).
    by apply elem_of_nil in Hy.
Defined.
